(** * SeoInsight: the SEO analysis engine and its persistence layer

    A shallow embedding of [seo_analyzer.py] and [database.py].

    Python strings are modelled as [string]: a sequence of characters, each
    read as a code point below 256.  Python dictionaries from tag names to
    tag contents ([og_tags], [twitter_tags]) are [gmap string string].  The
    [seo_data] dictionary has a fixed set of keys with a fixed type each, and
    is a record of optional fields: [None] is an absent key. *)

From Stdlib Require Import ZArith Ascii String List Bool Lia DecimalString.
From stdpp Require Import base option gmap strings list fin_maps sorting.

Local Open Scope string_scope.
Local Open Scope list_scope.

(** ** Python string operations used by the sources *)

Module PyStr.

(** [s.startswith(p)] *)
Fixpoint startswith (p s : string) : bool :=
  match p, s with
  | EmptyString, _ => true
  | String a p', String b s' => Ascii.eqb a b && startswith p' s'
  | String _ _, EmptyString => false
  end.

(** [s.startswith((p1, p2, ...))] *)
Definition startswith_any (ps : list string) (s : string) : bool :=
  existsb (fun p => startswith p s) ps.

(** [str.lower] on one character: A-Z, and the upper-case letters of the
    Latin-1 block (U+00C0 to U+00DE without the multiplication sign). *)
Definition lower_char (c : ascii) : ascii :=
  let n := nat_of_ascii c in
  if (((65 <=? n) && (n <=? 90))
      || ((192 <=? n) && (n <=? 222) && negb (n =? 215)))%nat
  then ascii_of_nat (n + 32) else c.

(** [s.lower()] *)
Fixpoint lower (s : string) : string :=
  match s with
  | EmptyString => EmptyString
  | String c s' => String (lower_char c) (lower s')
  end.

(** [c.isspace()] for a code point below 256. *)
Definition isspace (c : ascii) : bool :=
  let n := nat_of_ascii c in
  (((9 <=? n) && (n <=? 13)) || ((28 <=? n) && (n <=? 32))
   || (n =? 133) || (n =? 160))%nat.

(** [s.lstrip()] *)
Fixpoint lstrip (s : string) : string :=
  match s with
  | EmptyString => EmptyString
  | String c s' => if isspace c then lstrip s' else s
  end.

(** [s.rstrip()] *)
Fixpoint rstrip (s : string) : string :=
  match s with
  | EmptyString => EmptyString
  | String c s' =>
      match rstrip s' with
      | EmptyString => if isspace c then EmptyString else String c EmptyString
      | r => String c r
      end
  end.

(** [s.strip()] *)
Definition strip (s : string) : string := rstrip (lstrip s).

(** [s.replace(old, new)] for a non-empty [old]: occurrences are found left
    to right and do not overlap.  [skip] counts the characters of the
    current occurrence that are still to be dropped. *)
Fixpoint replace_from (old new : string) (skip : nat) (s : string) : string :=
  match s with
  | EmptyString => EmptyString
  | String c s' =>
      match skip with
      | S k => replace_from old new k s'
      | O =>
          if startswith old s
          then new +:+ replace_from old new (String.length old - 1) s'
          else String c (replace_from old new 0 s')
      end
  end.

(** [s.replace(old, new)]; with an empty [old], Python puts [new] before
    every character and at the end. *)
Fixpoint intersperse_all (new s : string) : string :=
  match s with
  | EmptyString => new
  | String c s' => new +:+ String c (intersperse_all new s')
  end.

Definition replace (old new s : string) : string :=
  match old with
  | EmptyString => intersperse_all new s
  | _ => replace_from old new 0 s
  end.

(** [sep.join(l)] *)
Fixpoint join (sep : string) (l : list string) : string :=
  match l with
  | [] => EmptyString
  | [x] => x
  | x :: l' => x +:+ sep +:+ join sep l'
  end.

(** [str(n)] for a length. *)
Definition str_of_nat (n : nat) : string :=
  NilZero.string_of_uint (Nat.to_uint n).

(** [not s]: the empty string is the only falsy string. *)
Definition is_empty (s : string) : bool :=
  match s with EmptyString => true | _ => false end.

End PyStr.

(** ** seo_analyzer.py: the URL normalizer *)

Module Url.
Import PyStr.

Definition schemes : list string := ["http://"; "https://"].

Definition normalize_url (url : string) : string :=
  if negb (startswith_any schemes url) then "https://" +:+ url else url.

(** [list(dict.fromkeys(l))]: every key is inserted in turn; a key already
    in the dictionary keeps its position. *)
Definition fromkeys_step (acc : list string) (k : string) : list string :=
  if bool_decide (k ∈ acc) then acc else acc ++ [k].

Definition fromkeys (l : list string) : list string :=
  fold_left fromkeys_step l [].

Definition get_url_variations (url : string) : list string :=
  let normalized := normalize_url url in
  let variations :=
    [ url;
      normalized;
      if startswith_any schemes url
      then replace "http://" "" (replace "https://" "" url)
      else url ] in
  fromkeys variations.

End Url.

Import PyStr Url.

(** ** The parsed page

    BeautifulSoup is an external library.  A parsed page is the sequence of
    its elements in document order, which is the order [find] and [find_all]
    search in.  An element has its tag name, its single-valued attributes, the
    values of its multi-valued [rel] attribute, and the text [get_text()]
    returns for it. *)

Module Soup.

Record Element := {
  tag : string;
  attrs : gmap string string;
  rel : list string;
  text : string
}.

Abbreviation Page := (list Element).

(** [soup.find_all(name)] *)
Definition find_all (name : string) (page : Page) : list Element :=
  filter (fun e => tag e = name) page.

(** [soup.find(name)] *)
Definition find (name : string) (page : Page) : option Element :=
  head (find_all name page).

(** [element.get(key, '')] *)
Definition get (e : Element) (key : string) : string :=
  default "" (attrs e !! key).

(** How BeautifulSoup matches [rel=value] against a multi-valued
    attribute: one of the values is [value], or the values joined by
    spaces are. *)
Definition rel_matches (value : string) (e : Element) : bool :=
  bool_decide (value ∈ rel e)
  || (negb (bool_decide (rel e = [])) && String.eqb (join " " (rel e)) value).

(** [soup.find(name, rel=value)] *)
Definition find_rel (name value : string) (page : Page) : option Element :=
  head (filter (fun e => rel_matches value e = true) (find_all name page)).

End Soup.

(** ** seo_analyzer.py: the SEOAnalyzer class *)

Module Analyzer.
Import Soup.

(** The dictionary [extract_seo_tags] builds, with all of its keys.
    [url] is [self.url], which is [None] or a string. *)
Record SeoDocument := {
  url : option string;
  title : string;
  meta_description : string;
  meta_keywords : string;
  og_tags : gmap string string;
  twitter_tags : gmap string string;
  h1_tags : list string;
  canonical : string
}.

(** [self.seo_data]: a dictionary in which each of the keys above is
    present or absent. *)
Record SeoDict := {
  item_url : option (option string);
  item_title : option string;
  item_meta_description : option string;
  item_meta_keywords : option string;
  item_og_tags : option (gmap string string);
  item_twitter_tags : option (gmap string string);
  item_h1_tags : option (list string);
  item_canonical : option string
}.

(** The dictionary [{}]. *)
Definition empty_dict : SeoDict :=
  {| item_url := None; item_title := None; item_meta_description := None;
     item_meta_keywords := None; item_og_tags := None;
     item_twitter_tags := None; item_h1_tags := None;
     item_canonical := None |}.

(** A dictionary that has every key. *)
Definition as_dict (d : SeoDocument) : SeoDict :=
  {| item_url := Some (url d); item_title := Some (title d);
     item_meta_description := Some (meta_description d);
     item_meta_keywords := Some (meta_keywords d);
     item_og_tags := Some (og_tags d);
     item_twitter_tags := Some (twitter_tags d);
     item_h1_tags := Some (h1_tags d);
     item_canonical := Some (canonical d) |}.

(** [not seo_data]: a dictionary is falsy when it has no key. *)
Definition dict_is_empty (d : SeoDict) : bool :=
  match item_url d, item_title d, item_meta_description d,
        item_meta_keywords d, item_og_tags d, item_twitter_tags d,
        item_h1_tags d, item_canonical d with
  | None, None, None, None, None, None, None, None => true
  | _, _, _, _, _, _, _, _ => false
  end.

Record SEOAnalyzer := {
  self_soup : option Page;
  self_url : option string;
  self_seo_data : SeoDict
}.

(** [__init__] *)
Definition init : SEOAnalyzer :=
  {| self_soup := None; self_url := None; self_seo_data := empty_dict |}.

Section Fetch.
(** [requests.get] with [raise_for_status], then the HTML parser:
    [None] when the request raises. *)
Variable http_get_parse : string -> option Page.

(** [fetch_html]: [None] is a raised exception, which leaves the object
    as it was. *)
Definition fetch_html (self : SEOAnalyzer) (u : string)
  : option SEOAnalyzer :=
  let u := normalize_url u in
  match http_get_parse u with
  | Some page =>
      Some {| self_soup := Some page; self_url := Some u;
              self_seo_data := self_seo_data self |}
  | None => None
  end.
End Fetch.

(** Assignments [seo_data[key] = v]. *)
Definition set_title (v : string) (d : SeoDocument) : SeoDocument :=
  {| url := url d; title := v; meta_description := meta_description d;
     meta_keywords := meta_keywords d; og_tags := og_tags d;
     twitter_tags := twitter_tags d; h1_tags := h1_tags d;
     canonical := canonical d |}.

Definition set_meta_description (v : string) (d : SeoDocument) : SeoDocument :=
  {| url := url d; title := title d; meta_description := v;
     meta_keywords := meta_keywords d; og_tags := og_tags d;
     twitter_tags := twitter_tags d; h1_tags := h1_tags d;
     canonical := canonical d |}.

Definition set_meta_keywords (v : string) (d : SeoDocument) : SeoDocument :=
  {| url := url d; title := title d; meta_description := meta_description d;
     meta_keywords := v; og_tags := og_tags d;
     twitter_tags := twitter_tags d; h1_tags := h1_tags d;
     canonical := canonical d |}.

Definition set_og_tags (v : gmap string string) (d : SeoDocument)
  : SeoDocument :=
  {| url := url d; title := title d; meta_description := meta_description d;
     meta_keywords := meta_keywords d; og_tags := v;
     twitter_tags := twitter_tags d; h1_tags := h1_tags d;
     canonical := canonical d |}.

Definition set_twitter_tags (v : gmap string string) (d : SeoDocument)
  : SeoDocument :=
  {| url := url d; title := title d; meta_description := meta_description d;
     meta_keywords := meta_keywords d; og_tags := og_tags d;
     twitter_tags := v; h1_tags := h1_tags d; canonical := canonical d |}.

Definition set_h1_tags (v : list string) (d : SeoDocument) : SeoDocument :=
  {| url := url d; title := title d; meta_description := meta_description d;
     meta_keywords := meta_keywords d; og_tags := og_tags d;
     twitter_tags := twitter_tags d; h1_tags := v;
     canonical := canonical d |}.

Definition set_canonical (v : string) (d : SeoDocument) : SeoDocument :=
  {| url := url d; title := title d; meta_description := meta_description d;
     meta_keywords := meta_keywords d; og_tags := og_tags d;
     twitter_tags := twitter_tags d; h1_tags := h1_tags d;
     canonical := v |}.

(** The body of the loop over the [meta] elements. *)
Definition meta_step (seo_data : SeoDocument) (meta : Element) : SeoDocument :=
  let name := lower (get meta "name") in
  let property_attr := lower (get meta "property") in
  let content := get meta "content" in
  if String.eqb name "description" then
    set_meta_description content seo_data
  else if String.eqb name "keywords" then
    set_meta_keywords content seo_data
  else if startswith "og:" property_attr then
    set_og_tags (<[property_attr := content]> (og_tags seo_data)) seo_data
  else if startswith "twitter:" name then
    set_twitter_tags (<[name := content]> (twitter_tags seo_data)) seo_data
  else seo_data.

(** The dictionary [extract_seo_tags] builds from a parsed page. *)
Definition extract_from (page : Page) (u : option string) : SeoDocument :=
  let seo_data :=
    {| url := u; title := ""; meta_description := ""; meta_keywords := "";
       og_tags := ∅; twitter_tags := ∅; h1_tags := []; canonical := "" |} in
  let seo_data :=
    match find "title" page with
    | Some title_tag => set_title (strip (text title_tag)) seo_data
    | None => seo_data
    end in
  let seo_data := fold_left meta_step (find_all "meta" page) seo_data in
  let seo_data :=
    set_h1_tags (map (fun h1 => strip (text h1)) (find_all "h1" page))
      seo_data in
  match find_rel "link" "canonical" page with
  | Some link => set_canonical (get link "href") seo_data
  | None => seo_data
  end.

(** [extract_seo_tags]: the returned dictionary and the object after the
    call. *)
Definition extract_seo_tags (self : SEOAnalyzer) : SeoDict * SEOAnalyzer :=
  match self_soup self with
  | None => (empty_dict, self)
  | Some page =>
      let seo_data := as_dict (extract_from page (self_url self)) in
      (seo_data,
       {| self_soup := self_soup self; self_url := self_url self;
          self_seo_data := seo_data |})
  end.

(** *** The quality analyzer *)

Inductive Status := success | warning | error.

(** One entry of the analysis: [{'status': .., 'message': .., 'score': ..}] *)
Record CategoryResult := {
  status : Status;
  message : string;
  score : Z
}.

(** The analysis is a dictionary in insertion order. *)
Abbreviation Analysis := (list (string * CategoryResult)).

(** [d[k] = v]: a key already in the dictionary keeps its position. *)
Fixpoint dict_set (k : string) (v : CategoryResult) (d : Analysis)
  : Analysis :=
  match d with
  | [] => [(k, v)]
  | (k', v') :: d' =>
      if String.eqb k' k then (k, v) :: d' else (k', v') :: dict_set k v d'
  end.

(** [d.get(k)] *)
Fixpoint dict_get (k : string) (d : Analysis) : option CategoryResult :=
  match d with
  | [] => None
  | (k', v) :: d' => if String.eqb k' k then Some v else dict_get k d'
  end.

(** [d.values()] *)
Definition values (d : Analysis) : list CategoryResult := map snd d.

Definition required_og : list string :=
  ["og:title"; "og:description"; "og:type"; "og:url"].

Definition required_twitter : list string :=
  ["twitter:card"; "twitter:title"; "twitter:description"].

(** [[tag for tag in required if tag not in tags]] *)
Definition missing (required : list string) (tags : gmap string string)
  : list string :=
  List.filter (fun tag => bool_decide (tags !! tag = None)) required.

Definition analyze_title (title : string) : CategoryResult :=
  if is_empty title then
    {| status := error; message := "Missing title tag"; score := 0 |}
  else if (String.length title <? 30)%nat then
    {| status := warning;
       message := "Title too short (" +:+ str_of_nat (String.length title)
                  +:+ " chars). Optimal: 50-60 chars";
       score := 10 |}
  else if (60 <? String.length title)%nat then
    {| status := warning;
       message := "Title too long (" +:+ str_of_nat (String.length title)
                  +:+ " chars). Optimal: 50-60 chars";
       score := 15 |}
  else
    {| status := success;
       message := "Title length optimal ("
                  +:+ str_of_nat (String.length title) +:+ " chars)";
       score := 20 |}.

Definition analyze_description (description : string) : CategoryResult :=
  if is_empty description then
    {| status := error; message := "Missing meta description"; score := 0 |}
  else if (String.length description <? 120)%nat then
    {| status := warning;
       message := "Description too short ("
                  +:+ str_of_nat (String.length description)
                  +:+ " chars). Optimal: 150-160 chars";
       score := 10 |}
  else if (160 <? String.length description)%nat then
    {| status := warning;
       message := "Description too long ("
                  +:+ str_of_nat (String.length description)
                  +:+ " chars). Optimal: 150-160 chars";
       score := 15 |}
  else
    {| status := success;
       message := "Description length optimal ("
                  +:+ str_of_nat (String.length description) +:+ " chars)";
       score := 20 |}.

Definition analyze_og (og_tags : gmap string string) : CategoryResult :=
  let missing_og := missing required_og og_tags in
  if bool_decide (og_tags = ∅) then
    {| status := error; message := "No Open Graph tags found"; score := 0 |}
  else if negb (bool_decide (missing_og = [])) then
    {| status := warning;
       message := "Missing OG tags: " +:+ join ", " missing_og;
       score := 10 |}
  else
    {| status := success;
       message := "All essential Open Graph tags present"; score := 20 |}.

Definition analyze_twitter (twitter_tags : gmap string string)
  : CategoryResult :=
  let missing_twitter := missing required_twitter twitter_tags in
  if bool_decide (twitter_tags = ∅) then
    {| status := error; message := "No Twitter Card tags found";
       score := 0 |}
  else if negb (bool_decide (missing_twitter = [])) then
    {| status := warning;
       message := "Missing Twitter tags: " +:+ join ", " missing_twitter;
       score := 10 |}
  else
    {| status := success;
       message := "All essential Twitter Card tags present"; score := 20 |}.

Definition analyze_h1 (h1_tags : list string) : CategoryResult :=
  match h1_tags with
  | [] => {| status := error; message := "No H1 tag found"; score := 0 |}
  | _ =>
      if (1 <? length h1_tags)%nat then
        {| status := warning;
           message := "Multiple H1 tags found ("
                      +:+ str_of_nat (length h1_tags)
                      +:+ "). Should have only one";
           score := 10 |}
      else
        {| status := success; message := "Single H1 tag found (optimal)";
           score := 20 |}
  end.

(** [analyze_seo_quality]: the five blocks of the method, each reading its
    key of [self.seo_data] with a default and assigning its entry. *)
Definition analyze_seo_quality (self : SEOAnalyzer) : Analysis :=
  let blank := {| status := error; message := ""; score := 0 |} in
  let analysis :=
    [("title", blank); ("description", blank); ("og_tags", blank);
     ("twitter_tags", blank); ("h1_structure", blank)] in
  let seo_data := self_seo_data self in
  let analysis :=
    dict_set "title"
      (analyze_title (default "" (item_title seo_data))) analysis in
  let analysis :=
    dict_set "description"
      (analyze_description (default "" (item_meta_description seo_data)))
      analysis in
  let analysis :=
    dict_set "og_tags"
      (analyze_og (default ∅ (item_og_tags seo_data))) analysis in
  let analysis :=
    dict_set "twitter_tags"
      (analyze_twitter (default ∅ (item_twitter_tags seo_data)))
      analysis in
  dict_set "h1_structure"
    (analyze_h1 (default [] (item_h1_tags seo_data))) analysis.

(** [calculate_seo_score]: [sum(item['score'] for item in analysis.values())] *)
Definition calculate_seo_score (analysis : Analysis) : Z :=
  fold_left (fun acc item => (acc + score item)%Z) (values analysis) 0%Z.

(** *** The preview resolver *)

Record PreviewData := {
  preview_title : string;
  preview_description : string;
  preview_image : string;
  preview_url : option string;
  preview_domain : string
}.

(** [x or y], where [x] is the result of [dict.get(key)]: [None] and the
    empty string are falsy. *)
Definition or_else (x : option string) (y : string) : string :=
  match x with
  | Some (String _ _ as s) => s
  | _ => y
  end.

Section Preview.
(** [urlparse(u).netloc] of the standard library. *)
Variable netloc : string -> string.

Definition get_preview_data (self : SEOAnalyzer) : PreviewData :=
  let seo_data := self_seo_data self in
  let og_tags := default ∅ (item_og_tags seo_data) in
  let twitter_tags := default ∅ (item_twitter_tags seo_data) in
  let title :=
    or_else (og_tags !! "og:title")
      (or_else (twitter_tags !! "twitter:title")
         (default "" (item_title seo_data))) in
  let description :=
    or_else (og_tags !! "og:description")
      (or_else (twitter_tags !! "twitter:description")
         (default "" (item_meta_description seo_data))) in
  let image :=
    or_else (og_tags !! "og:image")
      (default "" (twitter_tags !! "twitter:image")) in
  {| preview_title := title;
     preview_description := description;
     preview_image := image;
     preview_url := self_url self;
     preview_domain :=
       match self_url self with
       | Some (String _ _ as u) => netloc u
       | _ => ""
       end |}.
End Preview.

End Analyzer.

(** ** database.py: the DatabaseManager class

    PostgreSQL, psycopg2 and the [json] module are external.  The table
    [seo_analyses] is the list of its rows in insertion order.  A JSON column
    holds a document, which is identified with the Python value it decodes
    to: [json.dumps] on the way in and the decoding on the way out are not
    modelled beyond that. *)

Module Database.
Import Analyzer.

(** Python values that occur in rows and in returned records. *)
#[warnings="-register-all"] Inductive pyval :=
| PNone
| PStr (s : string)
| PInt (z : Z)
| PTime (t : nat)
| PList (l : list pyval)
| PDict (d : gmap string pyval).

(** A row of [seo_analyses]; [None] is SQL [NULL]. *)
Record Row := {
  col_url : option string;
  col_domain : option string;
  col_title : option string;
  col_meta_description : option string;
  col_meta_keywords : option string;
  col_og_tags : option pyval;
  col_twitter_tags : option pyval;
  col_h1_tags : option pyval;
  col_canonical : option string;
  col_seo_score : option Z;
  col_analysis_results : option pyval;
  col_analyzed_at : nat
}.

Abbreviation Table := (list Row).

(** What [get_cursor] gives: [None] when no connection can be made, in
    which case it raises. *)
Abbreviation Connection := (option Table).

Definition status_str (s : Status) : string :=
  match s with
  | success => "success"
  | warning => "warning"
  | error => "error"
  end.

(** The values handed to [json.dumps]. *)
Definition py_of_tags (tags : gmap string string) : pyval :=
  PDict (PStr <$> tags).

Definition py_of_strings (l : list string) : pyval :=
  PList (PStr <$> l).

Definition py_of_category (c : CategoryResult) : pyval :=
  PDict (<["status" := PStr (status_str (status c))]>
         (<["message" := PStr (message c)]>
          (<["score" := PInt (score c)]> ∅))).

Definition py_of_analysis (a : Analysis) : pyval :=
  PDict (list_to_map (map (fun kv => (fst kv, py_of_category (snd kv))) a)).

Section Persistence.
(** [urlparse(u).netloc] of the standard library. *)
Variable netloc : string -> string.

(** The row [save_analysis] inserts; [analyzed_at] is assigned by the
    server.  [seo_data.get('url', '')] is [None] only for a dictionary
    taken before any fetch; its domain is taken as that of the empty
    string. *)
Definition row_of (now : nat) (seo_data : SeoDict) (analysis : Analysis)
    (score : Z) : Row :=
  let u := default (Some "") (item_url seo_data) in
  {| col_url := u;
     col_domain := Some (netloc (default "" u));
     col_title := Some (default "" (item_title seo_data));
     col_meta_description :=
       Some (default "" (item_meta_description seo_data));
     col_meta_keywords := Some (default "" (item_meta_keywords seo_data));
     col_og_tags := Some (py_of_tags (default ∅ (item_og_tags seo_data)));
     col_twitter_tags :=
       Some (py_of_tags (default ∅ (item_twitter_tags seo_data)));
     col_h1_tags :=
       Some (py_of_strings (default [] (item_h1_tags seo_data)));
     col_canonical := Some (default "" (item_canonical seo_data));
     col_seo_score := Some score;
     col_analysis_results := Some (py_of_analysis analysis);
     col_analyzed_at := now |}.

End Persistence.

(** [WHERE url = ANY(variations)] *)
Definition url_matches (variations : list string) (r : Row) : bool :=
  match col_url r with
  | Some u => bool_decide (u ∈ variations)
  | None => false
  end.

(** [ORDER BY analyzed_at DESC LIMIT 1].  SQL leaves the choice among rows
    of equal time open; the first inserted is taken here. *)
Fixpoint most_recent (rows : list Row) : option Row :=
  match rows with
  | [] => None
  | r :: rows' =>
      match most_recent rows' with
      | Some r' =>
          if (col_analyzed_at r <? col_analyzed_at r')%nat
          then Some r' else Some r
      | None => Some r
      end
  end.

(** [safe_json_loads]: [{}] for [NULL]; a dictionary or a list as it is;
    anything else goes through [json.loads]. *)
Definition safe_json_loads (data : option pyval) : pyval :=
  match data with
  | None => PDict ∅
  | Some v => v
  end.

(** [bool(data)] for a value of a JSON column. *)
Definition truthy (data : option pyval) : bool :=
  match data with
  | None | Some PNone => false
  | Some (PStr s) => negb (is_empty s)
  | Some (PInt z) => negb (z =? 0)%Z
  | Some (PTime _) => true
  | Some (PList l) => negb (bool_decide (l = []))
  | Some (PDict d) => negb (bool_decide (d = ∅))
  end.

Definition py_of_option_str (x : option string) : pyval :=
  match x with Some s => PStr s | None => PNone end.

Definition py_of_option_int (x : option Z) : pyval :=
  match x with Some z => PInt z | None => PNone end.

(** The dictionary [get_analysis_by_url] builds from the fetched row. *)
Definition record_of (result : Row) : gmap string pyval :=
  <["url" := py_of_option_str (col_url result)]>
  (<["title" := PStr (or_else (col_title result) "")]>
  (<["meta_description" := PStr (or_else (col_meta_description result) "")]>
  (<["og_tags" := safe_json_loads (col_og_tags result)]>
  (<["twitter_tags" := safe_json_loads (col_twitter_tags result)]>
  (<["h1_tags" := if truthy (col_h1_tags result)
                  then safe_json_loads (col_h1_tags result)
                  else PList []]>
  (<["seo_score" := py_of_option_int (col_seo_score result)]>
  (<["analysis_results" := safe_json_loads (col_analysis_results result)]>
  (<["analyzed_at" := PTime (col_analyzed_at result)]> ∅)))))))).

(** [get_analysis_by_url]: [None] when no row matches or no connection can
    be made. *)
Definition get_analysis_by_url (conn : Connection) (u : string)
  : option (gmap string pyval) :=
  match conn with
  | Some table =>
      let unique_variations := get_url_variations u in
      match most_recent (List.filter (url_matches unique_variations) table)
      with
      | Some result => Some (record_of result)
      | None => None
      end
  | None => None
  end.

(** [ORDER BY analyzed_at DESC]: the later row first.  SQL leaves the order
    of rows of equal time open. *)
Definition newer_first (r1 r2 : Row) : Prop :=
  (col_analyzed_at r2 <= col_analyzed_at r1)%nat.

#[global] Instance newer_first_dec : RelDecision newer_first.
Proof. intros r1 r2. unfold newer_first. apply _. Defined.

(** The dictionary [get_recent_analyses] builds from a fetched row. *)
Definition summary_of (row : Row) : gmap string pyval :=
  <["url" := py_of_option_str (col_url row)]>
  (<["domain" := py_of_option_str (col_domain row)]>
  (<["title" := py_of_option_str (col_title row)]>
  (<["seo_score" := py_of_option_int (col_seo_score row)]>
  (<["analyzed_at" := PTime (col_analyzed_at row)]> ∅)))).


End Database.

(** ** ui_components.py: the pure parts of the display

    Streamlit is external.  Of the display functions, the grade of a score
    and the texts cut for the preview cards are modelled; the HTML around
    them is constant text. *)

Module Ui.
Import Analyzer.

(** [get_score_color_and_grade] *)
Definition get_score_color_and_grade (score : Z) : string * string :=
  if (80 <=? score)%Z then ("#4CAF50", "Excellent")
  else if (60 <=? score)%Z then ("#FF9800", "Good")
  else if (40 <=? score)%Z then ("#FF5722", "Needs Improvement")
  else ("#F44336", "Poor").

(** [s[:n]] *)
Fixpoint take_str (n : nat) (s : string) : string :=
  match n, s with
  | S n', String c s' => String c (take_str n' s')
  | _, _ => EmptyString
  end.

(** [f"{s[:n]}{'...' if len(s) > n else ''}"] *)
Definition ellipsize (n : nat) (s : string) : string :=
  take_str n s +:+ (if (n <? String.length s)%nat then "..." else "").

(** The title and description lines of [display_google_preview]. *)
Definition google_preview_title (preview_data : PreviewData) : string :=
  ellipsize 60 (preview_title preview_data).

Definition google_preview_description (preview_data : PreviewData) : string :=
  ellipsize 160 (preview_description preview_data).

(** The title and description lines of both cards of
    [display_social_preview]. *)
Definition social_preview_title (preview_data : PreviewData) : string :=
  ellipsize 60 (preview_title preview_data).

Definition social_preview_description (preview_data : PreviewData) : string :=
  ellipsize 120 (preview_description preview_data).

End Ui.

Import Soup Analyzer Database.
Import Ui.

(** ** Vocabulary of the specification *)

(** [s] starts with [http://] or [https://]. *)
Definition has_scheme (s : string) : Prop :=
  exists rest, s = "http://" +:+ rest \/ s = "https://" +:+ rest.

(** The third candidate as the specification words it: the input without
    its leading [http://] or [https://], nothing else removed. *)
Definition spec_strip_scheme (s : string) : string :=
  if startswith "https://" s then String.substring 8 (String.length s - 8) s
  else if startswith "http://" s then String.substring 7 (String.length s - 7) s
  else s.

Definition spec_variations (s : string) : list string :=
  fromkeys [s; normalize_url s; spec_strip_scheme s].

(** The rule of the title and description categories, with its two
    thresholds: the cases of the rule table, read top to bottom. *)
Definition length_rule (lo hi : nat) (s : string) (r : CategoryResult) : Prop :=
  (s = "" -> status r = error /\ score r = 0%Z)
  /\ (s <> "" -> (String.length s < lo)%nat ->
      status r = warning /\ score r = 10%Z)
  /\ ((hi < String.length s)%nat -> status r = warning /\ score r = 15%Z)
  /\ ((lo <= String.length s <= hi)%nat ->
      status r = success /\ score r = 20%Z).

(** The names of the five categories. *)
Definition category_names : list string :=
  ["title"; "description"; "og_tags"; "twitter_tags"; "h1_structure"].

(** The value under [k] is present and not the empty string. *)
Definition nonempty_at (m : gmap string string) (k v : string) : Prop :=
  m !! k = Some v /\ v <> "".

(** There is no value under [k], or it is the empty string. *)
Definition empty_at (m : gmap string string) (k : string) : Prop :=
  m !! k = None \/ m !! k = Some "".

(** The fallback order of the preview title and description: the Open Graph
    value if it is not empty, else the Twitter value if it is not empty, else
    the field of the document. *)
Definition fallback_rule (og tw : gmap string string) (kog ktw : string)
    (field r : string) : Prop :=
  (forall v, nonempty_at og kog v -> r = v)
  /\ (empty_at og kog -> forall v, nonempty_at tw ktw v -> r = v)
  /\ (empty_at og kog -> empty_at tw ktw -> r = field).

(** The fallback order of the preview image: the Twitter value is taken
    whenever its key is present. *)
Definition image_rule (og tw : gmap string string) (r : string) : Prop :=
  (forall v, nonempty_at og "og:image" v -> r = v)
  /\ (empty_at og "og:image" ->
      forall v, tw !! "twitter:image" = Some v -> r = v)
  /\ (empty_at og "og:image" -> tw !! "twitter:image" = None -> r = "").

(** The attributes the loop over the [meta] elements reads. *)
Definition meta_name (m : Element) : string := lower (get m "name").
Definition meta_property (m : Element) : string := lower (get m "property").
Definition meta_content (m : Element) : string := get m "content".

(** The four conditions of the classification. *)
Definition is_description (m : Element) : Prop := meta_name m = "description".
Definition is_keywords (m : Element) : Prop := meta_name m = "keywords".
Definition is_og (m : Element) : Prop :=
  exists rest, meta_property m = "og:" +:+ rest.
Definition is_twitter (m : Element) : Prop :=
  exists rest, meta_name m = "twitter:" +:+ rest.

(** The branch of a [meta] element: the first condition that holds, in the
    order description, keywords, og-prefix, twitter-prefix. *)
Inductive Branch := Description | Keywords | Og | Twitter | Ignored.

Inductive classifies (m : Element) : Branch -> Prop :=
| classifies_description :
    is_description m -> classifies m Description
| classifies_keywords :
    ~ is_description m -> is_keywords m -> classifies m Keywords
| classifies_og :
    ~ is_description m -> ~ is_keywords m -> is_og m -> classifies m Og
| classifies_twitter :
    ~ is_description m -> ~ is_keywords m -> ~ is_og m -> is_twitter m ->
    classifies m Twitter
| classifies_ignored :
    ~ is_description m -> ~ is_keywords m -> ~ is_og m -> ~ is_twitter m ->
    classifies m Ignored.

(** What each branch does to the dictionary. *)
Definition effect (b : Branch) (m : Element) (d : SeoDocument) : SeoDocument :=
  match b with
  | Description => set_meta_description (meta_content m) d
  | Keywords => set_meta_keywords (meta_content m) d
  | Og => set_og_tags (<[meta_property m := meta_content m]> (og_tags d)) d
  | Twitter =>
      set_twitter_tags (<[meta_name m := meta_content m]> (twitter_tags d)) d
  | Ignored => d
  end.

(** The dictionary of [extract_seo_tags] when the loop over the [meta]
    elements starts, and when it ends. *)
Definition before_meta (page : Page) (u : option string) : SeoDocument :=
  let seo_data :=
    {| url := u; title := ""; meta_description := ""; meta_keywords := "";
       og_tags := ∅; twitter_tags := ∅; h1_tags := []; canonical := "" |} in
  match find "title" page with
  | Some title_tag => set_title (strip (text title_tag)) seo_data
  | None => seo_data
  end.

Definition after_meta (page : Page) (u : option string) : SeoDocument :=
  fold_left meta_step (find_all "meta" page) (before_meta page u).

(** The tags whose absence the defaults are for. *)
Definition no_element (name : string) (page : Page) : Prop :=
  forall e, e ∈ page -> tag e <> name.

Definition no_meta (P : Element -> Prop) (page : Page) : Prop :=
  forall m, m ∈ page -> tag m = "meta" -> ~ P m.

Definition no_canonical_link (page : Page) : Prop :=
  forall e, e ∈ page -> tag e = "link" -> rel_matches "canonical" e = false.



(** [pat] occurs in [s] at some position. *)
Fixpoint occurs (pat s : string) : bool :=
  startswith pat s
  || match s with
     | EmptyString => false
     | String _ s' => occurs pat s'
     end.

(** [s] contains neither [http://] nor [https://]. *)
Definition scheme_free (s : string) : Prop :=
  occurs "http://" s = false /\ occurs "https://" s = false.

(** The rule of the two tag categories: no tag at all, some required key
    without a value, every required key with a value. *)
Definition tags_rule (required : list string) (tags : gmap string string)
    (r : CategoryResult) : Prop :=
  (tags = ∅ -> status r = error /\ score r = 0%Z)
  /\ (tags <> ∅ -> (exists k, k ∈ required /\ tags !! k = None) ->
      status r = warning /\ score r = 10%Z)
  /\ ((forall k, k ∈ required -> is_Some (tags !! k)) ->
      status r = success /\ score r = 20%Z).

(** How the score of an entry goes with its status. *)
Definition score_fits_status (r : CategoryResult) : Prop :=
  (status r = error <-> score r = 0%Z)
  /\ (status r = warning <-> score r = 10%Z \/ score r = 15%Z)
  /\ (status r = success <-> score r = 20%Z).

(** A dictionary with every absent key filled with its empty value. *)
Definition with_defaults (d : SeoDict) : SeoDocument :=
  {| url := default None (item_url d);
     title := default "" (item_title d);
     meta_description := default "" (item_meta_description d);
     meta_keywords := default "" (item_meta_keywords d);
     og_tags := default ∅ (item_og_tags d);
     twitter_tags := default ∅ (item_twitter_tags d);
     h1_tags := default [] (item_h1_tags d);
     canonical := default "" (item_canonical d) |}.

(** The same object with another [seo_data]. *)
Definition with_seo_data (self : SEOAnalyzer) (d : SeoDict) : SEOAnalyzer :=
  {| self_soup := self_soup self; self_url := self_url self;
     self_seo_data := d |}.

(** The writer of an entry of a tag mapping. *)
Definition written_by (b : Branch) (key : Element -> string) (page : Page)
    (k v : string) : Prop :=
  exists m, m ∈ page /\ tag m = "meta" /\ classifies m b
            /\ key m = k /\ meta_content m = v.

(** The rows of a table that a lookup of [q] can return. *)
Definition candidates (table : Table) (q : string) : list Row :=
  List.filter (url_matches (get_url_variations q)) table.

(** The grades from the worst to the best. *)
Definition grade_rank (grade : string) : nat :=
  if String.eqb grade "Excellent" then 3
  else if String.eqb grade "Good" then 2
  else if String.eqb grade "Needs Improvement" then 1
  else 0.

(** ** Sample values *)

Definition sample_doc : SeoDocument :=
  {| url := Some "https://example.com";
     title := "A Great Guide to Widgets and Gadgets";
     meta_description := "Short description";
     meta_keywords := "widgets, gadgets";
     og_tags := {["og:title" := ""]};
     twitter_tags := {["twitter:title" := "T"]};
     h1_tags := ["Widgets"];
     canonical := "https://example.com/" |}.

Definition sample_self : SEOAnalyzer :=
  {| self_soup := None; self_url := url sample_doc;
     self_seo_data := as_dict sample_doc |}.

Definition sample_image_doc : SeoDocument :=
  {| url := Some "https://example.com"; title := "D";
     meta_description := ""; meta_keywords := "";
     og_tags := ∅; twitter_tags := {["twitter:image" := ""]};
     h1_tags := []; canonical := "" |}.

Definition sample_image_self : SEOAnalyzer :=
  {| self_soup := None; self_url := url sample_image_doc;
     self_seo_data := as_dict sample_image_doc |}.

Definition meta_og_old : Element :=
  {| tag := "meta";
     attrs := <["property" := "og:title"]> (<["content" := "Old"]> ∅);
     rel := []; text := "" |}.

Definition meta_og_new : Element :=
  {| tag := "meta";
     attrs := <["property" := "OG:Title"]> (<["content" := "New"]> ∅);
     rel := []; text := "" |}.

Definition sample_fetched : SEOAnalyzer :=
  {| self_soup := Some []; self_url := Some "https://example.com";
     self_seo_data := empty_dict |}.

Definition sample_netloc (u : string) : string := "example.com".

Definition sample_plain_doc : SeoDocument :=
  {| url := Some "https://example.com";
     title := "A Great Guide to Widgets and Gadgets";
     meta_description := "Short description"; meta_keywords := "";
     og_tags := ∅; twitter_tags := ∅; h1_tags := ["Widgets"];
     canonical := "" |}.

Definition sample_plain_self : SEOAnalyzer :=
  {| self_soup := None; self_url := url sample_plain_doc;
     self_seo_data := as_dict sample_plain_doc |}.

Definition element (name : string) (attributes : list (string * string))
    (rels : list string) (content : string) : Element :=
  {| tag := name; attrs := list_to_map attributes; rel := rels;
     text := content |}.

Definition sample_titles : Page :=
  [element "title" [] [] " First "; element "title" [] [] "Second"].

Definition sample_descriptions : Page :=
  [element "meta" [("name", "description"); ("content", "old")] [] "";
   element "meta" [("name", "Description"); ("content", "new")] [] ""].

Definition sample_links : Page :=
  [element "link" [("href", "/a")] ["canonical"] "";
   element "link" [("href", "/b")] ["canonical"] ""].

Definition sample_one_h1 : SEOAnalyzer :=
  {| self_soup := Some [element "h1" [] [] "Widgets"];
     self_url := Some "https://example.com"; self_seo_data := empty_dict |}.

Definition sample_row : Row :=
  row_of sample_netloc 1 (as_dict sample_doc) [] 70.


Definition sample_get (u : string) : option Page := Some [].

(** ** Strings *)

Section StringFacts.

Lemma startswith_iff (p s : string) :
  startswith p s = true <-> exists rest, s = p +:+ rest.
Proof.
  revert s. induction p as [|a p IH]; intros s; simpl.
  - split; [intros _; exists s; reflexivity | reflexivity].
  - destruct s as [|b s].
    + split; [discriminate | intros [rest H]; discriminate H].
    + rewrite andb_true_iff, Ascii.eqb_eq, IH. split.
      * intros [-> [rest ->]]. exists rest. reflexivity.
      * intros [rest H]. injection H as -> ->. split; [reflexivity | eauto].
Qed.

Lemma has_scheme_iff (s : string) :
  has_scheme s <-> startswith_any schemes s = true.
Proof.
  unfold has_scheme, startswith_any, schemes. cbn [existsb].
  rewrite orb_false_r, orb_true_iff, !startswith_iff.
  split.
  - intros [rest [H|H]]; [left | right]; exists rest; exact H.
  - intros [[rest H]|[rest H]]; exists rest; [left | right]; exact H.
Qed.

Lemma has_scheme_dec (s : string) : {has_scheme s} + {~ has_scheme s}.
Proof.
  destruct (startswith_any schemes s) eqn:E.
  - left. apply has_scheme_iff. exact E.
  - right. intros H. apply has_scheme_iff in H. congruence.
Defined.

End StringFacts.

(** ** The URL normalizer *)

Section Normalizer.

Lemma normalize_url_keeps (s : string) :
  has_scheme s -> normalize_url s = s.
Proof.
  intros H. apply has_scheme_iff in H. unfold normalize_url.
  rewrite H. reflexivity.
Qed.

Lemma normalize_url_adds (s : string) :
  ~ has_scheme s -> normalize_url s = "https://" +:+ s.
Proof.
  intros H. unfold normalize_url.
  destruct (startswith_any schemes s) eqn:E; [|reflexivity].
  exfalso. apply H, has_scheme_iff, E.
Qed.

Lemma normalize_url_has_scheme (s : string) : has_scheme (normalize_url s).
Proof.
  destruct (has_scheme_dec s) as [H|H].
  - rewrite normalize_url_keeps; assumption.
  - rewrite normalize_url_adds by assumption. exists s. right. reflexivity.
Qed.

(** C7: a string without a scheme gets [https://] in front, a string with
    a scheme is returned as it is, and normalizing twice is normalizing
    once. *)
Theorem normalize_url_spec (s : string) :
  (~ has_scheme s -> normalize_url s = "https://" +:+ s)
  /\ (has_scheme s -> normalize_url s = s)
  /\ normalize_url (normalize_url s) = normalize_url s.
Proof.
  split; [apply normalize_url_adds|].
  split; [apply normalize_url_keeps|].
  apply normalize_url_keeps, normalize_url_has_scheme.
Qed.

Lemma normalize_url_spec_witness :
  normalize_url "example.com" = "https://example.com"
  /\ normalize_url "http://example.com" = "http://example.com"
  /\ normalize_url (normalize_url "example.com") = normalize_url "example.com".
Proof.
  split; [|split].
  - apply (proj1 (normalize_url_spec "example.com")).
    intros H. apply has_scheme_iff in H. vm_compute in H. discriminate H.
  - apply (proj1 (proj2 (normalize_url_spec "http://example.com"))).
    exists "example.com". left. reflexivity.
  - apply (proj2 (proj2 (normalize_url_spec "example.com"))).
Defined.

(** What holds of the variations whatever the third candidate is: one to
    three entries, no entry twice, the input first. *)
Lemma fromkeys_three (a b c : string) :
  exists rest,
    fromkeys [a; b; c] = a :: rest
    /\ (length rest <= 2)%nat
    /\ NoDup (a :: rest).
Proof.
  unfold fromkeys, fromkeys_step. simpl.
  repeat case_bool_decide; simpl;
    eexists; (split; [reflexivity|]); (split; [simpl; lia|]);
    rewrite ?NoDup_cons; rewrite ?elem_of_cons, ?elem_of_nil in *;
    intuition (subst; auto using NoDup_nil_2).
Qed.

Lemma get_url_variations_shape (s : string) :
  exists rest,
    get_url_variations s = s :: rest
    /\ (1 <= length (get_url_variations s) <= 3)%nat
    /\ NoDup (get_url_variations s).
Proof.
  unfold get_url_variations.
  match goal with
  | |- context [fromkeys [?a; ?b; ?c]] =>
      destruct (fromkeys_three a b c) as (rest & -> & Hlen & Hnd)
  end.
  exists rest. split; [reflexivity|]. split; [simpl; lia | exact Hnd].
Qed.

(** C6: on an input that has a scheme and contains [http://] once more,
    the third candidate loses the inner occurrence too, so the variations
    are not those of the specification. *)
Theorem get_url_variations_strips_inner_scheme :
  get_url_variations "http://a.io/?u=http://b.io"
  = ["http://a.io/?u=http://b.io"; "a.io/?u=b.io"]
  /\ spec_variations "http://a.io/?u=http://b.io"
     = ["http://a.io/?u=http://b.io"; "a.io/?u=http://b.io"].
Proof. split; vm_compute; reflexivity. Qed.

End Normalizer.

(** ** The quality analyzer and the score *)

Section Quality.

(** The dictionary the method returns, entry by entry. *)
Lemma analyze_seo_quality_entries (self : SEOAnalyzer) :
  analyze_seo_quality self
  = let seo_data := self_seo_data self in
    [("title", analyze_title (default "" (item_title seo_data)));
     ("description",
      analyze_description (default "" (item_meta_description seo_data)));
     ("og_tags", analyze_og (default ∅ (item_og_tags seo_data)));
     ("twitter_tags",
      analyze_twitter (default ∅ (item_twitter_tags seo_data)));
     ("h1_structure", analyze_h1 (default [] (item_h1_tags seo_data)))].
Proof. reflexivity. Qed.

Lemma is_empty_true (s : string) : is_empty s = true <-> s = "".
Proof. destruct s; simpl; split; congruence. Qed.

Lemma nonempty_length (s : string) : s <> "" -> (0 < String.length s)%nat.
Proof. destruct s; [congruence | simpl; lia]. Qed.

Lemma analyze_title_rule (t : string) : length_rule 30 60 t (analyze_title t).
Proof.
  unfold length_rule, analyze_title.
  destruct (is_empty t) eqn:E.
  - apply is_empty_true in E. subst t. simpl.
    repeat split; try reflexivity; try congruence; lia.
  - assert (t <> "") as Hne
      by (intros ->; discriminate E).
    destruct (Nat.ltb_spec (String.length t) 30);
      [|destruct (Nat.ltb_spec 60 (String.length t))]; cbn [status score];
      repeat split; try reflexivity; try congruence; lia.
Qed.

Lemma analyze_description_rule (d : string) :
  length_rule 120 160 d (analyze_description d).
Proof.
  unfold length_rule, analyze_description.
  destruct (is_empty d) eqn:E.
  - apply is_empty_true in E. subst d. simpl.
    repeat split; try reflexivity; try congruence; lia.
  - assert (d <> "") as Hne
      by (intros ->; discriminate E).
    destruct (Nat.ltb_spec (String.length d) 120);
      [|destruct (Nat.ltb_spec 160 (String.length d))]; cbn [status score];
      repeat split; try reflexivity; try congruence; lia.
Qed.

(** C1: the title category follows the rule with thresholds 30 and 60 and
    the description category the rule with thresholds 120 and 160: empty
    is an error with score 0, shorter than the lower threshold a warning
    with score 10, longer than the upper one a warning with score 15, and
    every length between the thresholds, both included, a success with
    score 20. *)
Theorem title_description_thresholds (self : SEOAnalyzer) (doc : SeoDocument) :
  self_seo_data self = as_dict doc ->
  exists t d,
    dict_get "title" (analyze_seo_quality self) = Some t
    /\ dict_get "description" (analyze_seo_quality self) = Some d
    /\ length_rule 30 60 (title doc) t
    /\ length_rule 120 160 (meta_description doc) d.
Proof.
  intros Hdoc. rewrite analyze_seo_quality_entries, Hdoc. cbn [as_dict
    item_title item_meta_description from_option id].
  eexists _, _. split; [reflexivity|]. split; [reflexivity|].
  split; [apply analyze_title_rule | apply analyze_description_rule].
Qed.

Lemma analyze_title_score (t : string) :
  (0 <= score (analyze_title t) <= 20)%Z.
Proof.
  unfold analyze_title.
  repeat match goal with |- context [if ?b then _ else _] => destruct b end;
    cbn [score]; lia.
Qed.

Lemma analyze_description_score (d : string) :
  (0 <= score (analyze_description d) <= 20)%Z.
Proof.
  unfold analyze_description.
  repeat match goal with |- context [if ?b then _ else _] => destruct b end;
    cbn [score]; lia.
Qed.

Lemma analyze_og_score (m : gmap string string) :
  (0 <= score (analyze_og m) <= 20)%Z.
Proof.
  unfold analyze_og.
  repeat match goal with |- context [if ?b then _ else _] => destruct b end;
    cbn [score]; lia.
Qed.

Lemma analyze_twitter_score (m : gmap string string) :
  (0 <= score (analyze_twitter m) <= 20)%Z.
Proof.
  unfold analyze_twitter.
  repeat match goal with |- context [if ?b then _ else _] => destruct b end;
    cbn [score]; lia.
Qed.

Lemma analyze_h1_score (l : list string) :
  (0 <= score (analyze_h1 l) <= 20)%Z.
Proof.
  unfold analyze_h1. destruct l; [cbn [score]; lia|].
  destruct (_ <? _)%nat; cbn [score]; lia.
Qed.

(** C2: the analysis has the five categories, the total is the sum of
    their five scores, and it lies between 0 and 100. *)
Theorem score_is_sum_and_bounded (self : SEOAnalyzer) (doc : SeoDocument) :
  self_seo_data self = as_dict doc ->
  let analysis := analyze_seo_quality self in
  exists t d o w h,
    map fst analysis = category_names
    /\ dict_get "title" analysis = Some t
    /\ dict_get "description" analysis = Some d
    /\ dict_get "og_tags" analysis = Some o
    /\ dict_get "twitter_tags" analysis = Some w
    /\ dict_get "h1_structure" analysis = Some h
    /\ calculate_seo_score analysis
       = (score t + score d + score o + score w + score h)%Z
    /\ (0 <= calculate_seo_score analysis <= 100)%Z.
Proof.
  intros Hdoc analysis. subst analysis.
  rewrite analyze_seo_quality_entries, Hdoc.
  cbn [as_dict item_title item_meta_description item_og_tags
       item_twitter_tags item_h1_tags from_option id].
  eexists _, _, _, _, _.
  do 6 (split; [reflexivity|]).
  assert (forall a b c d e : CategoryResult,
    calculate_seo_score
      [("title", a); ("description", b); ("og_tags", c);
       ("twitter_tags", d); ("h1_structure", e)]
    = (score a + score b + score c + score d + score e)%Z) as Hsum
    by (intros; unfold calculate_seo_score, values; simpl; lia).
  rewrite Hsum. split; [reflexivity|].
  pose proof (analyze_title_score (title doc)).
  pose proof (analyze_description_score (meta_description doc)).
  pose proof (analyze_og_score (og_tags doc)).
  pose proof (analyze_twitter_score (twitter_tags doc)).
  pose proof (analyze_h1_score (h1_tags doc)).
  lia.
Qed.

End Quality.

(** ** The preview resolver *)

Section Resolver.
Variable netloc : string -> string.

Lemma or_else_nonempty (x : option string) (y v : string) :
  x = Some v -> v <> "" -> or_else x y = v.
Proof. intros -> Hv. destruct v; [congruence | reflexivity]. Qed.

Lemma or_else_empty (x : option string) (y : string) :
  x = None \/ x = Some "" -> or_else x y = y.
Proof. intros [-> | ->]; reflexivity. Qed.

Lemma or_else_fallback (og tw : gmap string string) (kog ktw field : string) :
  fallback_rule og tw kog ktw field
    (or_else (og !! kog) (or_else (tw !! ktw) field)).
Proof.
  unfold fallback_rule, nonempty_at, empty_at. split; [|split].
  - intros v [Hv Hne]. apply or_else_nonempty; assumption.
  - intros Hog v [Hv Hne]. rewrite or_else_empty by assumption.
    apply or_else_nonempty; assumption.
  - intros Hog Htw. rewrite !or_else_empty by assumption. reflexivity.
Qed.

(** C3: the preview title is the value of [og:title] if it is not empty,
    else the value of [twitter:title] if it is not empty, else the title of
    the document; the preview description follows the same order over
    [og:description], [twitter:description] and the meta description.  An
    empty value falls through to the next source. *)
Theorem preview_title_description_fallback
    (self : SEOAnalyzer) (doc : SeoDocument) :
  self_seo_data self = as_dict doc ->
  fallback_rule (og_tags doc) (twitter_tags doc) "og:title" "twitter:title"
    (title doc) (preview_title (get_preview_data netloc self))
  /\ fallback_rule (og_tags doc) (twitter_tags doc)
       "og:description" "twitter:description"
       (meta_description doc)
       (preview_description (get_preview_data netloc self)).
Proof.
  intros Hdoc. unfold get_preview_data. rewrite Hdoc.
  cbn [as_dict item_title item_meta_description item_og_tags
       item_twitter_tags from_option id preview_title preview_description].
  split; apply or_else_fallback.
Qed.

(** C4: the preview image is the value of [og:image] if it is not empty,
    else the value of [twitter:image] whenever that key is present, empty or
    not, else the empty string.  With no Open Graph tags and an empty
    [twitter:image], the image is the empty value of the Twitter tag. *)
Theorem preview_image_fallback (self : SEOAnalyzer) (doc : SeoDocument) :
  self_seo_data self = as_dict doc ->
  image_rule (og_tags doc) (twitter_tags doc)
    (preview_image (get_preview_data netloc self))
  /\ (og_tags doc = ∅ ->
      twitter_tags doc = {["twitter:image" := ""]} ->
      preview_image (get_preview_data netloc self) = ""
      /\ twitter_tags doc !! "twitter:image"
         = Some (preview_image (get_preview_data netloc self))).
Proof.
  intros Hdoc. unfold get_preview_data. rewrite Hdoc.
  cbn [as_dict item_og_tags item_twitter_tags from_option id preview_image].
  split.
  - unfold image_rule, nonempty_at, empty_at. split; [|split].
    + intros v [Hv Hne]. apply or_else_nonempty; assumption.
    + intros Hog v Hv. rewrite or_else_empty by assumption.
      rewrite Hv. reflexivity.
    + intros Hog Htw. rewrite or_else_empty by assumption.
      rewrite Htw. reflexivity.
  - intros -> ->. rewrite lookup_empty, lookup_singleton_eq.
    split; reflexivity.
Qed.

End Resolver.

(** ** The tag extractor *)

Section Extractor.

Lemma is_description_dec (m : Element) :
  {is_description m} + {~ is_description m}.
Proof. unfold is_description. apply string_dec. Defined.

Lemma is_keywords_dec (m : Element) : {is_keywords m} + {~ is_keywords m}.
Proof. unfold is_keywords. apply string_dec. Defined.

Lemma is_og_iff (m : Element) :
  is_og m <-> startswith "og:" (meta_property m) = true.
Proof. unfold is_og. symmetry. apply startswith_iff. Qed.

Lemma is_twitter_iff (m : Element) :
  is_twitter m <-> startswith "twitter:" (meta_name m) = true.
Proof. unfold is_twitter. symmetry. apply startswith_iff. Qed.

(** Every element has a branch. *)
Lemma classifies_total (m : Element) : exists b, classifies m b.
Proof.
  destruct (is_description_dec m) as [Hd|Hd];
    [exists Description; constructor; assumption|].
  destruct (is_keywords_dec m) as [Hk|Hk];
    [exists Keywords; constructor; assumption|].
  destruct (startswith "og:" (meta_property m)) eqn:Ho.
  { exists Og. constructor; try assumption. apply is_og_iff, Ho. }
  assert (~ is_og m) as Hno by (rewrite is_og_iff; congruence).
  destruct (startswith "twitter:" (meta_name m)) eqn:Ht.
  { exists Twitter. constructor; try assumption. apply is_twitter_iff, Ht. }
  exists Ignored. constructor; try assumption.
  rewrite is_twitter_iff. congruence.
Qed.

(** No element has two. *)
Lemma classifies_unique (m : Element) (b1 b2 : Branch) :
  classifies m b1 -> classifies m b2 -> b1 = b2.
Proof.
  intros H1 H2. destruct H1; destruct H2; try reflexivity; contradiction.
Qed.

(** The loop body does what the branch of the element says. *)
Lemma meta_step_effect (d : SeoDocument) (m : Element) (b : Branch) :
  classifies m b -> meta_step d m = effect b m d.
Proof.
  intros Hb. unfold meta_step.
  fold (meta_name m) (meta_property m) (meta_content m).
  destruct Hb as [Hd | Hd Hk | Hd Hk Ho | Hd Hk Ho Ht | Hd Hk Ho Ht];
    unfold is_description, is_keywords in *;
    rewrite ?is_og_iff, ?is_twitter_iff in *.
  - apply String.eqb_eq in Hd. rewrite Hd. reflexivity.
  - apply String.eqb_neq in Hd. apply String.eqb_eq in Hk.
    rewrite Hd, Hk. reflexivity.
  - apply String.eqb_neq in Hd, Hk. rewrite Hd, Hk, Ho. reflexivity.
  - apply String.eqb_neq in Hd, Hk. apply not_true_is_false in Ho.
    rewrite Hd, Hk, Ho, Ht. reflexivity.
  - apply String.eqb_neq in Hd, Hk. apply not_true_is_false in Ho, Ht.
    rewrite Hd, Hk, Ho, Ht. reflexivity.
Qed.

(** A reading [f] of the dictionary that no element of the loop changes is
    the same after the loop. *)
Lemma fold_meta_step_preserves {A : Type} (f : SeoDocument -> A)
    (ms : list Element) (d : SeoDocument) :
  (forall m d', m ∈ ms -> f (meta_step d' m) = f d') ->
  f (fold_left meta_step ms d) = f d.
Proof.
  revert d. induction ms as [|m ms IH]; intros d Hstep; [reflexivity|].
  cbn [fold_left]. rewrite IH.
  - apply Hstep. left.
  - intros m' d' Hin. apply Hstep. right. exact Hin.
Qed.

Lemma extract_from_og_tags (page : Page) (u : option string) :
  og_tags (extract_from page u) = og_tags (after_meta page u).
Proof.
  unfold extract_from. fold (before_meta page u). fold (after_meta page u).
  destruct (find_rel _ _ _); reflexivity.
Qed.

Lemma extract_from_twitter_tags (page : Page) (u : option string) :
  twitter_tags (extract_from page u) = twitter_tags (after_meta page u).
Proof.
  unfold extract_from. fold (before_meta page u). fold (after_meta page u).
  destruct (find_rel _ _ _); reflexivity.
Qed.

Lemma find_all_split (name : string) (page1 page2 : Page) (m : Element) :
  tag m = name ->
  find_all name (page1 ++ m :: page2)
  = find_all name page1 ++ m :: find_all name page2.
Proof.
  intros Hm. unfold find_all. rewrite filter_app, filter_cons_True by exact Hm.
  reflexivity.
Qed.

Lemma elem_of_find_all (name : string) (page : Page) (e : Element) :
  e ∈ find_all name page <-> tag e = name /\ e ∈ page.
Proof.
  unfold find_all.
  exact (list_elem_of_filter (fun x => tag x = name) page e).
Qed.

(** The value under [k] after the loop is the content of the last element
    that writes [k]. *)
Lemma og_last_wins (ms1 ms2 : list Element) (m : Element) (d : SeoDocument)
    (k : string) :
  classifies m Og -> meta_property m = k ->
  (forall m', m' ∈ ms2 -> classifies m' Og -> meta_property m' <> k) ->
  og_tags (fold_left meta_step (ms1 ++ m :: ms2) d) !! k
  = Some (meta_content m).
Proof.
  intros Hm Hk Hlater. rewrite fold_left_app. cbn [fold_left].
  rewrite (fold_meta_step_preserves (fun d => og_tags d !! k)).
  - rewrite (meta_step_effect _ _ _ Hm). cbn [effect set_og_tags og_tags].
    rewrite Hk. apply lookup_insert_eq.
  - intros m' d' Hin. destruct (classifies_total m') as [b Hb].
    rewrite (meta_step_effect _ _ _ Hb).
    destruct b; try reflexivity.
    cbn [effect set_og_tags og_tags].
    apply lookup_insert_ne. apply Hlater; assumption.
Qed.

Lemma twitter_last_wins (ms1 ms2 : list Element) (m : Element)
    (d : SeoDocument) (k : string) :
  classifies m Twitter -> meta_name m = k ->
  (forall m', m' ∈ ms2 -> classifies m' Twitter -> meta_name m' <> k) ->
  twitter_tags (fold_left meta_step (ms1 ++ m :: ms2) d) !! k
  = Some (meta_content m).
Proof.
  intros Hm Hk Hlater. rewrite fold_left_app. cbn [fold_left].
  rewrite (fold_meta_step_preserves (fun d => twitter_tags d !! k)).
  - rewrite (meta_step_effect _ _ _ Hm).
    cbn [effect set_twitter_tags twitter_tags].
    rewrite Hk. apply lookup_insert_eq.
  - intros m' d' Hin. destruct (classifies_total m') as [b Hb].
    rewrite (meta_step_effect _ _ _ Hb).
    destruct b; try reflexivity.
    cbn [effect set_twitter_tags twitter_tags].
    apply lookup_insert_ne. apply Hlater; assumption.
Qed.

(** C5: every [meta] element has exactly one branch, the first of its
    conditions that holds in the order description, keywords, og-prefix,
    twitter-prefix, or none; the loop applies that branch and nothing else,
    an element with no branch leaving the dictionary as it is; and the
    value of an [og_tags] or [twitter_tags] key after extraction is the
    content of the last element in document order that writes the key. *)
Theorem meta_classification :
  (forall m, exists b,
      classifies m b /\ (forall b', classifies m b' -> b' = b))
  /\ (forall d m b, classifies m b -> meta_step d m = effect b m d)
  /\ (forall page1 page2 m u k,
        tag m = "meta" -> classifies m Og -> meta_property m = k ->
        (forall m', m' ∈ page2 -> tag m' = "meta" -> classifies m' Og ->
                    meta_property m' <> k) ->
        og_tags (extract_from (page1 ++ m :: page2) u) !! k
        = Some (meta_content m))
  /\ (forall page1 page2 m u k,
        tag m = "meta" -> classifies m Twitter -> meta_name m = k ->
        (forall m', m' ∈ page2 -> tag m' = "meta" ->
                    classifies m' Twitter -> meta_name m' <> k) ->
        twitter_tags (extract_from (page1 ++ m :: page2) u) !! k
        = Some (meta_content m)).
Proof.
  split; [|split; [|split]].
  - intros m. destruct (classifies_total m) as [b Hb]. exists b.
    split; [exact Hb|]. intros b' Hb'. eapply classifies_unique; eassumption.
  - intros d m b. apply meta_step_effect.
  - intros page1 page2 m u k Hm Hb Hk Hlater.
    rewrite extract_from_og_tags. unfold after_meta.
    rewrite find_all_split by exact Hm.
    apply og_last_wins; try assumption.
    intros m' Hin. apply elem_of_find_all in Hin as [Htag Hin].
    apply Hlater; assumption.
  - intros page1 page2 m u k Hm Hb Hk Hlater.
    rewrite extract_from_twitter_tags. unfold after_meta.
    rewrite find_all_split by exact Hm.
    apply twitter_last_wins; try assumption.
    intros m' Hin. apply elem_of_find_all in Hin as [Htag Hin].
    apply Hlater; assumption.
Qed.

Lemma find_all_none (name : string) (page : Page) :
  no_element name page -> find_all name page = [].
Proof.
  unfold no_element, find_all. induction page as [|e page IH]; intros Hno.
  - reflexivity.
  - rewrite filter_cons_False by (apply Hno; left).
    apply IH. intros e' Hin. apply Hno. right. exact Hin.
Qed.

Lemma find_rel_none (page : Page) :
  no_canonical_link page -> find_rel "link" "canonical" page = None.
Proof.
  intros Hno. unfold find_rel. apply head_None.
  destruct (filter _ _) as [|e l] eqn:E; [reflexivity|].
  assert (e ∈ filter (fun e => rel_matches "canonical" e = true)
                (find_all "link" page)) as Hin by (rewrite E; left).
  apply list_elem_of_filter in Hin as [Hrel Hin].
  apply elem_of_find_all in Hin as [Htag Hin].
  rewrite (Hno e Hin Htag) in Hrel. discriminate Hrel.
Qed.

(** The fields the loop reads off: what the steps after it leave alone. *)
Lemma extract_from_fields (page : Page) (u : option string) :
  let doc := extract_from page u in
  url doc = u
  /\ title doc = title (before_meta page u)
  /\ meta_description doc = meta_description (after_meta page u)
  /\ meta_keywords doc = meta_keywords (after_meta page u)
  /\ h1_tags doc = map (fun h1 => strip (text h1)) (find_all "h1" page)
  /\ canonical doc
     = match find_rel "link" "canonical" page with
       | Some link => get link "href"
       | None => canonical (after_meta page u)
       end.
Proof.
  assert (forall b m d, url (effect b m d) = url d
                        /\ title (effect b m d) = title d) as Heff
    by (intros [] m d; split; reflexivity).
  assert (forall ms d, url (fold_left meta_step ms d) = url d) as Hurl.
  { intros ms d. apply (fold_meta_step_preserves url). intros m d' _.
    destruct (classifies_total m) as [b Hb].
    rewrite (meta_step_effect _ _ _ Hb). apply Heff. }
  assert (forall ms d, title (fold_left meta_step ms d) = title d) as Htitle.
  { intros ms d. apply (fold_meta_step_preserves title). intros m d' _.
    destruct (classifies_total m) as [b Hb].
    rewrite (meta_step_effect _ _ _ Hb). apply Heff. }
  cbv zeta. unfold extract_from.
  fold (before_meta page u). fold (after_meta page u).
  destruct (find_rel _ _ _);
    cbn [set_canonical set_h1_tags url title meta_description meta_keywords
         h1_tags canonical];
    unfold after_meta; rewrite Hurl, Htitle;
    (repeat split; try reflexivity);
    unfold before_meta; destruct (find _ _); reflexivity.
Qed.

Lemma before_meta_defaults (page : Page) (u : option string) :
  let d := before_meta page u in
  meta_description d = "" /\ meta_keywords d = "" /\ og_tags d = ∅
  /\ twitter_tags d = ∅ /\ canonical d = ""
  /\ (no_element "title" page -> title d = "").
Proof.
  cbv zeta. unfold before_meta, find.
  repeat split; try (destruct (head _); reflexivity).
  intros Hno. rewrite (find_all_none _ _ Hno). reflexivity.
Qed.

(** A reading that only branch [b0] changes is left alone by a loop over
    elements none of which has that branch. *)
Lemma after_meta_unchanged {A : Type} (f : SeoDocument -> A) (b0 : Branch)
    (page : Page) (u : option string) :
  (forall b m d, b <> b0 -> f (effect b m d) = f d) ->
  (forall m, m ∈ page -> tag m = "meta" -> ~ classifies m b0) ->
  f (after_meta page u) = f (before_meta page u).
Proof.
  intros Heff Hno. unfold after_meta. apply fold_meta_step_preserves.
  intros m d' Hin. apply elem_of_find_all in Hin as [Htag Hin].
  destruct (classifies_total m) as [b Hb].
  rewrite (meta_step_effect _ _ _ Hb). apply Heff.
  intros ->. exact (Hno m Hin Htag Hb).
Qed.

Lemma canonical_after_meta (page : Page) (u : option string) :
  canonical (after_meta page u) = "".
Proof.
  unfold after_meta.
  rewrite (fold_meta_step_preserves canonical).
  - apply before_meta_defaults.
  - intros m d' _. destruct (classifies_total m) as [b Hb].
    rewrite (meta_step_effect _ _ _ Hb). destruct b; reflexivity.
Qed.


(** C8: with a parsed page held, extraction returns a dictionary that has
    every key, and stores it; the title, the meta description, the meta
    keywords and the canonical URL are the empty string when their tag is
    missing, the two tag mappings are empty when no [meta] element has
    their prefix, and the list of headings is empty when there is no
    [h1]. *)
Theorem extraction_total_with_defaults (self : SEOAnalyzer) (page : Page) :
  self_soup self = Some page ->
  exists doc,
    fst (extract_seo_tags self) = as_dict doc
    /\ self_seo_data (snd (extract_seo_tags self)) = as_dict doc
    /\ url doc = self_url self
    /\ (no_element "title" page -> title doc = "")
    /\ (no_meta is_description page -> meta_description doc = "")
    /\ (no_meta is_keywords page -> meta_keywords doc = "")
    /\ (no_canonical_link page -> canonical doc = "")
    /\ (no_meta is_og page -> og_tags doc = ∅)
    /\ (no_meta is_twitter page -> twitter_tags doc = ∅)
    /\ (no_element "h1" page -> h1_tags doc = []).
Proof.
  intros Hsoup. exists (extract_from page (self_url self)).
  unfold extract_seo_tags. rewrite Hsoup. cbn [fst snd self_seo_data].
  destruct (extract_from_fields page (self_url self))
    as (Hurl & Htitle & Hdesc & Hkw & Hh1 & Hcan).
  destruct (before_meta_defaults page (self_url self))
    as (Bdesc & Bkw & Bog & Btw & Bcan & Btitle).
  split; [reflexivity|]. split; [reflexivity|]. split; [exact Hurl|].
  split; [|split; [|split; [|split; [|split; [|split]]]]].
  - intros Hno. rewrite Htitle. apply Btitle, Hno.
  - intros Hno. rewrite Hdesc, <- Bdesc.
    apply (after_meta_unchanged meta_description Description).
    + intros [] m d Hb; try reflexivity. congruence.
    + intros m Hin Htag Hb. inversion Hb. exact (Hno m Hin Htag H).
  - intros Hno. rewrite Hkw, <- Bkw.
    apply (after_meta_unchanged meta_keywords Keywords).
    + intros [] m d Hb; try reflexivity. congruence.
    + intros m Hin Htag Hb. inversion Hb. exact (Hno m Hin Htag H0).
  - intros Hno. rewrite Hcan, (find_rel_none _ Hno).
    apply canonical_after_meta.
  - intros Hno. rewrite extract_from_og_tags, <- Bog.
    apply (after_meta_unchanged og_tags Og).
    + intros [] m d Hb; try reflexivity. congruence.
    + intros m Hin Htag Hb. inversion Hb. exact (Hno m Hin Htag H1).
  - intros Hno. rewrite extract_from_twitter_tags, <- Btw.
    apply (after_meta_unchanged twitter_tags Twitter).
    + intros [] m d Hb; try reflexivity. congruence.
    + intros m Hin Htag Hb. inversion Hb. exact (Hno m Hin Htag H2).
  - intros Hno. rewrite Hh1, (find_all_none _ _ Hno). reflexivity.
Qed.

(** C10: with no parsed page held, extraction returns the empty
    dictionary, which has none of the keys and so is the dictionary of no
    document, and leaves the object as it was. *)
Theorem extraction_before_fetch (self : SEOAnalyzer) :
  self_soup self = None ->
  extract_seo_tags self = (empty_dict, self)
  /\ dict_is_empty (fst (extract_seo_tags self)) = true
  /\ item_title (fst (extract_seo_tags self)) = None
  /\ item_og_tags (fst (extract_seo_tags self)) = None
  /\ forall doc, fst (extract_seo_tags self) <> as_dict doc.
Proof.
  intros Hsoup. unfold extract_seo_tags. rewrite Hsoup. cbn [fst].
  repeat split. intros doc H. discriminate H.
Qed.

End Extractor.

(** ** Persistence *)

Section Persistence.
Variable netloc : string -> string.







End Persistence.

(** ** The theorems at sample values *)

Section Samples.

Example normalize_bare : normalize_url "example.com" = "https://example.com".
Proof. reflexivity. Qed.

Example variations_bare :
  get_url_variations "example.com" = ["example.com"; "https://example.com"].
Proof. vm_compute. reflexivity. Qed.

Example variations_http :
  get_url_variations "http://example.com"
  = ["http://example.com"; "example.com"].
Proof. vm_compute. reflexivity. Qed.

Example strip_spaces : strip "  a b  " = "a b".
Proof. reflexivity. Qed.

Example lower_og : lower "OG:Title" = "og:title".
Proof. reflexivity. Qed.

Example str_of_nat_digits : str_of_nat 0 = "0" /\ str_of_nat 61 = "61".
Proof. split; reflexivity. Qed.

Example sample_analysis_scores :
  map (fun kv => (fst kv, status (snd kv), score (snd kv)))
    (analyze_seo_quality sample_self)
  = [("title", success, 20%Z); ("description", warning, 10%Z);
     ("og_tags", warning, 10%Z); ("twitter_tags", warning, 10%Z);
     ("h1_structure", success, 20%Z)].
Proof. vm_compute. reflexivity. Qed.

(** A title of 36 characters is a success with score 20. *)
Lemma title_description_thresholds_witness :
  exists t,
    dict_get "title" (analyze_seo_quality sample_self) = Some t
    /\ status t = success /\ score t = 20%Z.
Proof.
  destruct (title_description_thresholds sample_self sample_doc eq_refl)
    as (t & d & Ht & Hd & Rt & Rd).
  exists t. split; [exact Ht|].
  apply (proj2 (proj2 (proj2 Rt))). simpl. lia.
Defined.

Lemma score_is_sum_and_bounded_witness :
  (0 <= calculate_seo_score (analyze_seo_quality sample_self) <= 100)%Z.
Proof.
  destruct (score_is_sum_and_bounded sample_self sample_doc eq_refl)
    as (t & d & o & w & h & _ & _ & _ & _ & _ & _ & _ & Hb).
  exact Hb.
Defined.

(** An empty [og:title] falls through to [twitter:title]. *)
Lemma preview_title_description_fallback_witness :
  preview_title (get_preview_data sample_netloc sample_self) = "T".
Proof.
  apply (proj1 (proj2 (proj1
    (preview_title_description_fallback sample_netloc sample_self sample_doc
       eq_refl)))).
  - right. vm_compute. reflexivity.
  - split; [vm_compute; reflexivity | discriminate].
Defined.

(** An empty [twitter:image] is taken when there is no [og:image]. *)
Lemma preview_image_fallback_witness :
  preview_image (get_preview_data sample_netloc sample_image_self) = "".
Proof.
  apply (proj1 (proj2 (proj1
    (preview_image_fallback sample_netloc sample_image_self sample_image_doc
       eq_refl)))).
  - left. vm_compute. reflexivity.
  - vm_compute. reflexivity.
Defined.

Lemma meta_og_new_branch : classifies meta_og_new Og.
Proof.
  apply classifies_og.
  - unfold is_description. vm_compute. discriminate.
  - unfold is_keywords. vm_compute. discriminate.
  - exists "title". vm_compute. reflexivity.
Defined.

(** Of two elements that write [og:title], the later one stays. *)
Lemma meta_classification_witness :
  og_tags (extract_from [meta_og_old; meta_og_new] None) !! "og:title"
  = Some "New".
Proof.
  apply (proj1 (proj2 (proj2 meta_classification))
           [meta_og_old] [] meta_og_new None "og:title").
  - reflexivity.
  - exact meta_og_new_branch.
  - vm_compute. reflexivity.
  - intros m' Hin. apply elem_of_nil in Hin. destruct Hin.
Defined.

(** A page with no element gives a dictionary with every default. *)
Lemma extraction_total_with_defaults_witness :
  exists doc,
    fst (extract_seo_tags sample_fetched) = as_dict doc
    /\ title doc = "" /\ og_tags doc = ∅ /\ h1_tags doc = [].
Proof.
  destruct (extraction_total_with_defaults sample_fetched [] eq_refl)
    as (doc & Hdict & _ & _ & Ht & _ & _ & _ & Hog & _ & Hh1).
  exists doc. split; [exact Hdict|].
  split; [|split].
  - apply Ht. intros e Hin. apply elem_of_nil in Hin. destruct Hin.
  - apply Hog. intros e Hin. apply elem_of_nil in Hin. destruct Hin.
  - apply Hh1. intros e Hin. apply elem_of_nil in Hin. destruct Hin.
Defined.

(** A new object returns the empty dictionary. *)
Lemma extraction_before_fetch_witness :
  extract_seo_tags init = (empty_dict, init).
Proof. apply (proj1 (extraction_before_fetch init eq_refl)). Defined.



End Samples.

(** ** More on the URL normalizer *)

Section Variations.

Lemma length_append (s1 s2 : string) :
  String.length (s1 +:+ s2) = (String.length s1 + String.length s2)%nat.
Proof. induction s1 as [|c s1 IH]; simpl; [reflexivity | rewrite IH; reflexivity]. Qed.

Lemma append_neq (p s t : string) :
  (String.length t < String.length p)%nat -> p +:+ s <> t +:+ s.
Proof.
  intros Hlen Heq. apply (f_equal String.length) in Heq.
  rewrite !length_append in Heq. lia.
Qed.

Lemma elem_of_fold_fromkeys (l acc : list string) (x : string) :
  x ∈ fold_left fromkeys_step l acc <-> x ∈ acc \/ x ∈ l.
Proof.
  revert acc. induction l as [|k l IH]; intros acc; cbn [fold_left].
  - rewrite elem_of_nil. tauto.
  - rewrite IH, elem_of_cons. unfold fromkeys_step. case_bool_decide.
    + split; [tauto|]. intros [H0|[->|H0]]; tauto.
    + rewrite elem_of_app, list_elem_of_singleton. tauto.
Qed.

Lemma NoDup_fold_fromkeys (l acc : list string) :
  NoDup acc -> NoDup (fold_left fromkeys_step l acc).
Proof.
  revert acc. induction l as [|k l IH]; intros acc Hacc; cbn [fold_left];
    [exact Hacc|].
  apply IH. unfold fromkeys_step. case_bool_decide; [exact Hacc|].
  apply NoDup_app. split; [exact Hacc|]. split.
  - intros x Hx Hk. apply list_elem_of_singleton in Hk. subst x. contradiction.
  - apply NoDup_singleton.
Qed.

(** X1: the variations are one to three strings, no string twice, the input
    first; they are the input, its normalized form and the third candidate,
    so the normalized form is always among them. *)
Theorem variations_shape (s : string) :
  (exists rest, get_url_variations s = s :: rest /\ (length rest <= 2)%nat)
  /\ NoDup (get_url_variations s)
  /\ normalize_url s ∈ get_url_variations s
  /\ has_scheme (normalize_url s).
Proof.
  split; [|split; [|split]].
  - destruct (get_url_variations_shape s) as (rest & Hv & Hlen & _).
    exists rest. split; [exact Hv|]. rewrite Hv in Hlen. simpl in Hlen. lia.
  - unfold get_url_variations, fromkeys. apply NoDup_fold_fromkeys, NoDup_nil_2.
  - unfold get_url_variations, fromkeys. apply elem_of_fold_fromkeys.
    right. right. left.
  - apply normalize_url_has_scheme.
Qed.

Lemma fromkeys_two (a b : string) :
  a <> b -> fromkeys [a; a; b] = [a; b].
Proof.
  intros Hne. unfold fromkeys, fromkeys_step. simpl.
  repeat case_bool_decide; simpl;
    rewrite ?elem_of_cons, ?elem_of_nil in *;
    try reflexivity; exfalso; intuition congruence.
Qed.

Lemma fromkeys_aba (a b : string) :
  a <> b -> fromkeys [a; b; a] = [a; b].
Proof.
  intros Hne. unfold fromkeys, fromkeys_step. simpl.
  repeat case_bool_decide; simpl;
    rewrite ?elem_of_cons, ?elem_of_nil in *;
    try reflexivity; exfalso; intuition congruence.
Qed.

Lemma variations_without_scheme_aux (s : string) :
  ~ has_scheme s ->
  get_url_variations s = [s; "https://" +:+ s]
  /\ "http://" +:+ s ∉ get_url_variations s.
Proof.
  intros Hs.
  assert (startswith_any schemes s = false) as Hno.
  { destruct (startswith_any schemes s) eqn:E; [|reflexivity].
    exfalso. apply Hs, has_scheme_iff, E. }
  assert ("https://" +:+ s <> s) as Hne
    by (apply (append_neq "https://" s ""); simpl; lia).
  assert (get_url_variations s = [s; "https://" +:+ s]) as Hv.
  { unfold get_url_variations, normalize_url. rewrite Hno. cbn [negb].
    apply fromkeys_aba. congruence. }
  split; [exact Hv|]. rewrite Hv.
  rewrite !elem_of_cons, elem_of_nil. intros [H|[H|[]]].
  - revert H. apply (append_neq "http://" s ""). simpl. lia.
  - revert H. change ("http://" +:+ s <> "https://" +:+ s).
    intros H. apply (append_neq "https://" s "http://"); [simpl; lia|].
    symmetry. exact H.
Qed.

(** X2: for an input with no scheme the variations are exactly the input and
    the input with [https://] in front; a row stored under the [http://]
    form of the input is not among them. *)
Theorem variations_without_scheme (s : string) :
  ~ has_scheme s ->
  get_url_variations s = [s; "https://" +:+ s]
  /\ "http://" +:+ s ∉ get_url_variations s.
Proof. apply variations_without_scheme_aux. Qed.

Lemma replace_from_absent (old new s : string) :
  occurs old s = false -> replace_from old new 0 s = s.
Proof.
  induction s as [|c s IH]; intros Hocc; [reflexivity|].
  cbn [occurs] in Hocc. apply orb_false_iff in Hocc as [Hhere Hrest].
  cbn [replace_from]. rewrite Hhere, IH by exact Hrest. reflexivity.
Qed.

Lemma strip_https (s : string) :
  scheme_free s ->
  replace "http://" "" (replace "https://" "" ("https://" +:+ s)) = s.
Proof.
  intros [Hhttp Hhttps].
  assert (replace "https://" "" ("https://" +:+ s)
          = replace_from "https://" "" 0 s) as ->.
  { unfold replace. cbn. destruct s; reflexivity. }
  rewrite (replace_from_absent _ _ _ Hhttps).
  unfold replace. apply replace_from_absent, Hhttp.
Qed.

Lemma strip_http (s : string) :
  scheme_free s ->
  replace "http://" "" (replace "https://" "" ("http://" +:+ s)) = s.
Proof.
  intros [Hhttp Hhttps].
  assert (replace "https://" "" ("http://" +:+ s) = "http://" +:+ s) as ->.
  { unfold replace. apply replace_from_absent. cbn. exact Hhttps. }
  assert (replace "http://" "" ("http://" +:+ s)
          = replace_from "http://" "" 0 s) as ->.
  { unfold replace. cbn. destruct s; reflexivity. }
  apply replace_from_absent, Hhttp.
Qed.

Lemma variations_with_scheme_aux (s : string) :
  scheme_free s ->
  get_url_variations ("https://" +:+ s) = ["https://" +:+ s; s]
  /\ get_url_variations ("http://" +:+ s) = ["http://" +:+ s; s].
Proof.
  intros Hs. split.
  - unfold get_url_variations.
    assert (startswith_any schemes ("https://" +:+ s) = true) as Hyes
      by (apply has_scheme_iff; exists s; right; reflexivity).
    unfold normalize_url. rewrite Hyes. cbn [negb].
    rewrite (strip_https s Hs). apply fromkeys_two.
    apply (append_neq "https://" s ""). simpl. lia.
  - unfold get_url_variations.
    assert (startswith_any schemes ("http://" +:+ s) = true) as Hyes
      by (apply has_scheme_iff; exists s; left; reflexivity).
    unfold normalize_url. rewrite Hyes. cbn [negb].
    rewrite (strip_http s Hs). apply fromkeys_two.
    apply (append_neq "http://" s ""). simpl. lia.
Qed.

(** X3: for a string [s] that contains no scheme, the variations of
    [https://s] are [https://s] and [s], and those of [http://s] are
    [http://s] and [s]: a URL stored without its scheme is found from either
    form with a scheme. *)
Theorem variations_with_scheme (s : string) :
  scheme_free s ->
  get_url_variations ("https://" +:+ s) = ["https://" +:+ s; s]
  /\ get_url_variations ("http://" +:+ s) = ["http://" +:+ s; s].
Proof. apply variations_with_scheme_aux. Qed.

End Variations.

(** ** More on the quality analyzer *)

Section Categories.

Lemma missing_spec (required : list string) (tags : gmap string string)
    (k : string) :
  k ∈ missing required tags <-> k ∈ required /\ tags !! k = None.
Proof.
  unfold missing. rewrite !list_elem_of_In, List.filter_In.
  rewrite bool_decide_eq_true. reflexivity.
Qed.

Lemma missing_nil (required : list string) (tags : gmap string string) :
  missing required tags = []
  <-> forall k, k ∈ required -> is_Some (tags !! k).
Proof.
  split.
  - intros Hnil k Hk. destruct (tags !! k) eqn:E; [eauto|].
    assert (k ∈ missing required tags) as Hin by (apply missing_spec; auto).
    rewrite Hnil in Hin. apply elem_of_nil in Hin. destruct Hin.
  - intros Hall. destruct (missing required tags) as [|k l] eqn:E;
      [reflexivity|].
    assert (k ∈ missing required tags) as Hin by (rewrite E; left).
    apply missing_spec in Hin as [Hk Hnone].
    destruct (Hall k Hk) as [v Hv]. congruence.
Qed.

Lemma analyze_og_rule (tags : gmap string string) :
  tags_rule required_og tags (analyze_og tags).
Proof.
  unfold tags_rule, analyze_og. split; [|split].
  - intros ->. rewrite bool_decide_eq_true_2 by reflexivity.
    split; reflexivity.
  - intros Hne (k & Hk & Hnone).
    rewrite bool_decide_eq_false_2 by exact Hne.
    rewrite bool_decide_eq_false_2; [split; reflexivity|].
    intros Hnil. destruct (proj1 (missing_nil _ _) Hnil k Hk). congruence.
  - intros Hall.
    rewrite bool_decide_eq_false_2.
    + rewrite (proj2 (missing_nil _ _) Hall).
      rewrite bool_decide_eq_true_2 by reflexivity. split; reflexivity.
    + intros ->. destruct (Hall "og:title") as [v Hv]; [left|].
      rewrite lookup_empty in Hv. discriminate Hv.
Qed.

Lemma analyze_twitter_rule (tags : gmap string string) :
  tags_rule required_twitter tags (analyze_twitter tags).
Proof.
  unfold tags_rule, analyze_twitter. split; [|split].
  - intros ->. rewrite bool_decide_eq_true_2 by reflexivity.
    split; reflexivity.
  - intros Hne (k & Hk & Hnone).
    rewrite bool_decide_eq_false_2 by exact Hne.
    rewrite bool_decide_eq_false_2; [split; reflexivity|].
    intros Hnil. destruct (proj1 (missing_nil _ _) Hnil k Hk). congruence.
  - intros Hall.
    rewrite bool_decide_eq_false_2.
    + rewrite (proj2 (missing_nil _ _) Hall).
      rewrite bool_decide_eq_true_2 by reflexivity. split; reflexivity.
    + intros ->. destruct (Hall "twitter:card") as [v Hv]; [left|].
      rewrite lookup_empty in Hv. discriminate Hv.
Qed.

(** X4: the Open Graph category is an error with score 0 when there is no
    Open Graph tag, a warning with score 10 when there are some but one of
    [og:title], [og:description], [og:type], [og:url] has no value, and a
    success with score 20 when all four have one; the warning names exactly
    the required keys without a value.  The Twitter category is the same over
    [twitter:card], [twitter:title], [twitter:description]. *)
Theorem tag_categories_rule (self : SEOAnalyzer) (doc : SeoDocument) :
  self_seo_data self = as_dict doc ->
  exists o w,
    dict_get "og_tags" (analyze_seo_quality self) = Some o
    /\ dict_get "twitter_tags" (analyze_seo_quality self) = Some w
    /\ tags_rule required_og (og_tags doc) o
    /\ tags_rule required_twitter (twitter_tags doc) w
    /\ (status o = warning ->
        message o
        = "Missing OG tags: " +:+ join ", " (missing required_og (og_tags doc)))
    /\ (status w = warning ->
        message w
        = "Missing Twitter tags: "
          +:+ join ", " (missing required_twitter (twitter_tags doc)))
    /\ (forall k, k ∈ missing required_og (og_tags doc)
                  <-> k ∈ required_og /\ og_tags doc !! k = None).
Proof.
  intros Hdoc. rewrite analyze_seo_quality_entries, Hdoc.
  cbn [as_dict item_og_tags item_twitter_tags from_option id].
  eexists _, _. split; [reflexivity|]. split; [reflexivity|].
  split; [apply analyze_og_rule|]. split; [apply analyze_twitter_rule|].
  split; [|split].
  - unfold analyze_og.
    repeat match goal with |- context [if ?b then _ else _] => destruct b end;
      cbn [status message]; intros H; try discriminate H; reflexivity.
  - unfold analyze_twitter.
    repeat match goal with |- context [if ?b then _ else _] => destruct b end;
      cbn [status message]; intros H; try discriminate H; reflexivity.
  - intros k. apply missing_spec.
Qed.

Lemma analyze_title_fits (t : string) : score_fits_status (analyze_title t).
Proof.
  unfold score_fits_status, analyze_title.
  repeat match goal with |- context [if ?b then _ else _] => destruct b end;
    cbn [status score]; repeat split; intros; try discriminate; try lia; auto;
    try (destruct H; discriminate).
Qed.

Lemma analyze_description_fits (t : string) :
  score_fits_status (analyze_description t).
Proof.
  unfold score_fits_status, analyze_description.
  repeat match goal with |- context [if ?b then _ else _] => destruct b end;
    cbn [status score]; repeat split; intros; try discriminate; try lia; auto;
    try (destruct H; discriminate).
Qed.

Lemma analyze_og_fits (m : gmap string string) :
  score_fits_status (analyze_og m) /\ score (analyze_og m) <> 15%Z.
Proof.
  unfold score_fits_status, analyze_og.
  repeat match goal with |- context [if ?b then _ else _] => destruct b end;
    cbn [status score]; repeat split; intros; try discriminate; try lia; auto;
    try (destruct H; discriminate).
Qed.

Lemma analyze_twitter_fits (m : gmap string string) :
  score_fits_status (analyze_twitter m) /\ score (analyze_twitter m) <> 15%Z.
Proof.
  unfold score_fits_status, analyze_twitter.
  repeat match goal with |- context [if ?b then _ else _] => destruct b end;
    cbn [status score]; repeat split; intros; try discriminate; try lia; auto;
    try (destruct H; discriminate).
Qed.

Lemma analyze_h1_fits (l : list string) :
  score_fits_status (analyze_h1 l) /\ score (analyze_h1 l) <> 15%Z.
Proof.
  unfold score_fits_status, analyze_h1. destruct l as [|x l];
    [|destruct (_ <? _)%nat];
    cbn [status score]; repeat split; intros; try discriminate; try lia; auto;
    try (destruct H; discriminate).
Qed.

(** The entries of an analysis, whatever [seo_data] holds. *)
Lemma analysis_entry (self : SEOAnalyzer) (k : string) (r : CategoryResult) :
  dict_get k (analyze_seo_quality self) = Some r ->
  let d := with_defaults (self_seo_data self) in
  (k = "title" /\ r = analyze_title (title d))
  \/ (k = "description" /\ r = analyze_description (meta_description d))
  \/ (k = "og_tags" /\ r = analyze_og (og_tags d))
  \/ (k = "twitter_tags" /\ r = analyze_twitter (twitter_tags d))
  \/ (k = "h1_structure" /\ r = analyze_h1 (h1_tags d)).
Proof.
  rewrite analyze_seo_quality_entries. cbv zeta. cbn [dict_get].
  repeat match goal with
  | |- context [String.eqb ?a k] =>
      destruct (String.eqb_spec a k) as [<-|_]
  end; intros H; try discriminate H; injection H as <-; tauto.
Qed.

(** X5: in every analysis, whatever the object holds, an entry is an error
    exactly when its score is 0, a success exactly when it is 20, and a
    warning exactly when it is 10 or 15; only the title and the description
    can score 15; and the analysis has no entry under another name. *)
Theorem scores_fit_statuses (self : SEOAnalyzer) (k : string) :
  match dict_get k (analyze_seo_quality self) with
  | Some r =>
      k ∈ category_names /\ score_fits_status r
      /\ (score r = 15%Z -> k = "title" \/ k = "description")
  | None => k ∉ category_names
  end.
Proof.
  destruct (dict_get k (analyze_seo_quality self)) as [r|] eqn:E.
  - destruct (analysis_entry self k r E)
      as [[-> ->]|[[-> ->]|[[-> ->]|[[-> ->]|[-> ->]]]]].
    + split; [set_solver|]. split; [apply analyze_title_fits | tauto].
    + split; [set_solver|]. split; [apply analyze_description_fits | tauto].
    + split; [unfold category_names; set_solver|].
      split; [apply analyze_og_fits|]. intros H.
      destruct (proj2 (analyze_og_fits _) H).
    + split; [unfold category_names; set_solver|].
      split; [apply analyze_twitter_fits|]. intros H.
      destruct (proj2 (analyze_twitter_fits _) H).
    + split; [unfold category_names; set_solver|].
      split; [apply analyze_h1_fits|]. intros H.
      destruct (proj2 (analyze_h1_fits _) H).
  - rewrite analyze_seo_quality_entries in E. cbv zeta in E.
    cbn [dict_get] in E.
    repeat match type of E with
    | context [String.eqb ?a k] =>
        destruct (String.eqb_spec a k) as [?|?]; [discriminate E|]
    end.
    unfold category_names. rewrite !elem_of_cons, elem_of_nil.
    intuition congruence.
Qed.

End Categories.

(** ** More on the score *)

Section Totals.

Lemma calculate_five (a b c d e : CategoryResult) :
  calculate_seo_score
    [("title", a); ("description", b); ("og_tags", c);
     ("twitter_tags", d); ("h1_structure", e)]
  = (score a + score b + score c + score d + score e)%Z.
Proof. unfold calculate_seo_score, values. simpl. lia. Qed.

Lemma all_entries (self : SEOAnalyzer) (P : CategoryResult -> Prop) :
  (forall k r, dict_get k (analyze_seo_quality self) = Some r -> P r)
  <-> (let d := with_defaults (self_seo_data self) in
       P (analyze_title (title d))
       /\ P (analyze_description (meta_description d))
       /\ P (analyze_og (og_tags d))
       /\ P (analyze_twitter (twitter_tags d))
       /\ P (analyze_h1 (h1_tags d))).
Proof.
  cbv zeta. split.
  - intros H. repeat split.
    + apply (H "title"). reflexivity.
    + apply (H "description"). reflexivity.
    + apply (H "og_tags"). reflexivity.
    + apply (H "twitter_tags"). reflexivity.
    + apply (H "h1_structure"). reflexivity.
  - intros (Ht & Hd & Ho & Hw & Hh) k r E.
    destruct (analysis_entry self k r E)
      as [[_ ->]|[[_ ->]|[[_ ->]|[[_ ->]|[_ ->]]]]]; assumption.
Qed.

(** X6: the total is 100 exactly when all five categories are a success, and
    0 exactly when all five are an error; it is always a multiple of 5. *)
Theorem total_extremes (self : SEOAnalyzer) :
  let analysis := analyze_seo_quality self in
  (calculate_seo_score analysis = 100%Z
   <-> forall k r, dict_get k analysis = Some r -> status r = success)
  /\ (calculate_seo_score analysis = 0%Z
      <-> forall k r, dict_get k analysis = Some r -> status r = error)
  /\ exists n, calculate_seo_score analysis = (5 * n)%Z.
Proof.
  cbv zeta. rewrite !all_entries. cbv zeta.
  rewrite analyze_seo_quality_entries. cbv zeta. rewrite calculate_five.
  set (d := with_defaults (self_seo_data self)).
  change (from_option id "" (item_title (self_seo_data self)))
    with (title d).
  change (from_option id "" (item_meta_description (self_seo_data self)))
    with (meta_description d).
  change (from_option id ∅ (item_og_tags (self_seo_data self)))
    with (og_tags d).
  change (from_option id ∅ (item_twitter_tags (self_seo_data self)))
    with (twitter_tags d).
  change (from_option id [] (item_h1_tags (self_seo_data self)))
    with (h1_tags d).
  destruct (analyze_title_fits (title d)) as (Te & Tw & Ts).
  destruct (analyze_description_fits (meta_description d)) as (De & Dw & Ds).
  destruct (analyze_og_fits (og_tags d)) as ((Oe & Ow & Os) & _).
  destruct (analyze_twitter_fits (twitter_tags d)) as ((We & Ww & Ws) & _).
  destruct (analyze_h1_fits (h1_tags d)) as ((He & Hw & Hs) & _).
  pose proof (analyze_title_score (title d)).
  pose proof (analyze_description_score (meta_description d)).
  pose proof (analyze_og_score (og_tags d)).
  pose proof (analyze_twitter_score (twitter_tags d)).
  pose proof (analyze_h1_score (h1_tags d)).
  assert (forall r, score_fits_status r ->
            score r = 0%Z \/ score r = 10%Z \/ score r = 15%Z \/ score r = 20%Z)
    as Hvals.
  { intros r (Re & Rw & Rs). destruct (status r).
    - right. right. right. apply Rs. reflexivity.
    - destruct (proj1 Rw eq_refl); tauto.
    - left. apply Re. reflexivity. }
  split; [|split].
  - rewrite Ts, Ds, Os, Ws, Hs. lia.
  - rewrite Te, De, Oe, We, He. lia.
  - destruct (Hvals _ (analyze_title_fits (title d))) as [E|[E|[E|E]]];
    destruct (Hvals _ (analyze_description_fits (meta_description d)))
      as [E0|[E0|[E0|E0]]];
    destruct (Hvals _ (proj1 (analyze_og_fits (og_tags d))))
      as [E1|[E1|[E1|E1]]];
    destruct (Hvals _ (proj1 (analyze_twitter_fits (twitter_tags d))))
      as [E2|[E2|[E2|E2]]];
    destruct (Hvals _ (proj1 (analyze_h1_fits (h1_tags d))))
      as [E3|[E3|[E3|E3]]];
    rewrite E, E0, E1, E2, E3;
    eexists; match goal with |- ?a = _ => 
      instantiate (1 := (a / 5)%Z) end; reflexivity.
Qed.

(** X7: a key that is absent from [seo_data] counts as its empty value, in
    the analysis as in the preview; so on an object that has extracted
    nothing the five categories are errors, the total is 0 and the preview
    title, description and image are empty. *)
Theorem missing_keys_as_empty (netloc : string -> string) (self : SEOAnalyzer) :
  let filled :=
    with_seo_data self (as_dict (with_defaults (self_seo_data self))) in
  analyze_seo_quality self = analyze_seo_quality filled
  /\ preview_title (get_preview_data netloc self)
     = preview_title (get_preview_data netloc filled)
  /\ preview_description (get_preview_data netloc self)
     = preview_description (get_preview_data netloc filled)
  /\ preview_image (get_preview_data netloc self)
     = preview_image (get_preview_data netloc filled)
  /\ (self_seo_data self = empty_dict ->
      map (fun kv => (fst kv, status (snd kv), message (snd kv)))
        (analyze_seo_quality self)
      = [("title", error, "Missing title tag");
         ("description", error, "Missing meta description");
         ("og_tags", error, "No Open Graph tags found");
         ("twitter_tags", error, "No Twitter Card tags found");
         ("h1_structure", error, "No H1 tag found")]
      /\ calculate_seo_score (analyze_seo_quality self) = 0%Z
      /\ preview_title (get_preview_data netloc self) = ""
      /\ preview_description (get_preview_data netloc self) = ""
      /\ preview_image (get_preview_data netloc self) = "").
Proof.
  cbv zeta. do 4 (split; [reflexivity|]).
  intros Hempty. rewrite analyze_seo_quality_entries.
  unfold get_preview_data. rewrite Hempty.
  repeat split; vm_compute; reflexivity.
Qed.

End Totals.

(** ** More on the tag extractor *)

Section Order.

Lemma analyze_h1_status (l : list string) :
  (status (analyze_h1 l) = error <-> length l = 0%nat)
  /\ (status (analyze_h1 l) = success <-> length l = 1%nat)
  /\ (status (analyze_h1 l) = warning <-> (2 <= length l)%nat).
Proof.
  unfold analyze_h1. destruct l as [|x [|y l]]; cbn [length Nat.ltb Nat.leb status];
    repeat split; intros; try discriminate; try reflexivity; try lia.
Qed.

(** X8: after an extraction the heading category is an error when the page
    has no [h1] element, a success when it has exactly one and a warning when
    it has two or more. *)
Theorem h1_category_counts_elements (self : SEOAnalyzer) (page : Page) :
  self_soup self = Some page ->
  exists h,
    dict_get "h1_structure"
      (analyze_seo_quality (snd (extract_seo_tags self))) = Some h
    /\ (status h = error <-> length (find_all "h1" page) = 0%nat)
    /\ (status h = success <-> length (find_all "h1" page) = 1%nat)
    /\ (status h = warning <-> (2 <= length (find_all "h1" page))%nat).
Proof.
  intros Hsoup. unfold extract_seo_tags. rewrite Hsoup. cbn [snd].
  rewrite analyze_seo_quality_entries.
  cbn [self_seo_data as_dict item_h1_tags from_option id].
  eexists. split; [reflexivity|].
  destruct (extract_from_fields page (self_url self))
    as (_ & _ & _ & _ & -> & _).
  pose proof (analyze_h1_status
                (map (fun h1 => strip (text h1)) (find_all "h1" page))) as H.
  rewrite length_map in H. exact H.
Qed.

(** X9: the title is the stripped text of the first [title] element of the
    page; later ones are not looked at. *)
Theorem title_first_wins (page1 page2 : Page) (t : Element) (u : option string) :
  tag t = "title" ->
  no_element "title" page1 ->
  title (extract_from (page1 ++ t :: page2) u) = strip (text t).
Proof.
  intros Ht Hno.
  destruct (extract_from_fields (page1 ++ t :: page2) u)
    as (_ & -> & _).
  unfold before_meta, find.
  rewrite (find_all_split "title" page1 page2 t Ht), (find_all_none _ _ Hno).
  reflexivity.
Qed.

(** A reading that only branch [b0] writes holds, after the loop, what the
    last element of that branch wrote. *)
Lemma field_last_wins {A : Type} (f : SeoDocument -> A) (b0 : Branch)
    (val : Element -> A) (ms1 ms2 : list Element) (m : Element)
    (d : SeoDocument) :
  (forall m d, f (effect b0 m d) = val m) ->
  (forall b m d, b <> b0 -> f (effect b m d) = f d) ->
  classifies m b0 ->
  (forall m', m' ∈ ms2 -> ~ classifies m' b0) ->
  f (fold_left meta_step (ms1 ++ m :: ms2) d) = val m.
Proof.
  intros Hset Hkeep Hm Hlater. rewrite fold_left_app. cbn [fold_left].
  rewrite (fold_meta_step_preserves f).
  - rewrite (meta_step_effect _ _ _ Hm). apply Hset.
  - intros m' d' Hin. destruct (classifies_total m') as [b Hb].
    rewrite (meta_step_effect _ _ _ Hb). apply Hkeep.
    intros ->. exact (Hlater m' Hin Hb).
Qed.

(** X10: the meta description is the content of the last [meta] element of
    the page whose name is [description], and the meta keywords the content
    of the last one whose name is [keywords]. *)
Theorem description_keywords_last_win (page1 page2 : Page) (m : Element)
    (u : option string) :
  tag m = "meta" ->
  (classifies m Description ->
   no_meta (fun m' => classifies m' Description) page2 ->
   meta_description (extract_from (page1 ++ m :: page2) u) = meta_content m)
  /\ (classifies m Keywords ->
      no_meta (fun m' => classifies m' Keywords) page2 ->
      meta_keywords (extract_from (page1 ++ m :: page2) u) = meta_content m).
Proof.
  intros Htag.
  destruct (extract_from_fields (page1 ++ m :: page2) u)
    as (_ & _ & -> & -> & _).
  unfold after_meta. rewrite (find_all_split "meta" page1 page2 m Htag).
  split; intros Hm Hlater.
  - apply (field_last_wins meta_description Description meta_content);
      try assumption.
    + reflexivity.
    + intros [] m' d' Hb; try reflexivity. congruence.
    + intros m' Hin. apply elem_of_find_all in Hin as [Ht Hin].
      exact (Hlater m' Hin Ht).
  - apply (field_last_wins meta_keywords Keywords meta_content);
      try assumption.
    + reflexivity.
    + intros [] m' d' Hb; try reflexivity. congruence.
    + intros m' Hin. apply elem_of_find_all in Hin as [Ht Hin].
      exact (Hlater m' Hin Ht).
Qed.

(** X11: the canonical URL is the [href] of the first [link] element whose
    [rel] matches [canonical], and the empty string when that element has no
    [href]; later ones are not looked at. *)
Theorem canonical_first_wins (page1 page2 : Page) (l : Element)
    (u : option string) :
  tag l = "link" ->
  rel_matches "canonical" l = true ->
  no_canonical_link page1 ->
  canonical (extract_from (page1 ++ l :: page2) u)
  = default "" (attrs l !! "href").
Proof.
  intros Htag Hrel Hno.
  destruct (extract_from_fields (page1 ++ l :: page2) u)
    as (_ & _ & _ & _ & _ & ->).
  assert (find_rel "link" "canonical" (page1 ++ l :: page2) = Some l) as ->;
    [|reflexivity].
  unfold find_rel. rewrite (find_all_split "link" page1 page2 l Htag).
  rewrite filter_app, filter_cons_True by exact Hrel.
  pose proof (find_rel_none page1 Hno) as Hnone. unfold find_rel in Hnone.
  apply head_None in Hnone. rewrite Hnone. reflexivity.
Qed.

End Order.

(** ** Where the extracted tags come from *)

Section Provenance.

Lemma lower_char_idempotent (c : ascii) :
  lower_char (lower_char c) = lower_char c.
Proof. destruct c as [[] [] [] [] [] [] [] []]; reflexivity. Qed.

Lemma lower_idempotent (s : string) : lower (lower s) = lower s.
Proof.
  induction s as [|c s IH]; [reflexivity|].
  cbn [lower]. rewrite lower_char_idempotent, IH. reflexivity.
Qed.

Lemma fold_meta_step_invariant (Inv : SeoDocument -> Prop)
    (ms : list Element) (d : SeoDocument) :
  Inv d ->
  (forall m d', m ∈ ms -> Inv d' -> Inv (meta_step d' m)) ->
  Inv (fold_left meta_step ms d).
Proof.
  revert d. induction ms as [|m ms IH]; intros d Hd Hstep; [exact Hd|].
  cbn [fold_left]. apply IH.
  - apply Hstep; [left | exact Hd].
  - intros m' d' Hin. apply Hstep. right. exact Hin.
Qed.

Lemma og_tags_written (page : Page) (u : option string) (k v : string) :
  og_tags (after_meta page u) !! k = Some v ->
  written_by Og meta_property page k v.
Proof.
  revert k v. unfold after_meta.
  apply (fold_meta_step_invariant
           (fun d => forall k v, og_tags d !! k = Some v ->
                                 written_by Og meta_property page k v)).
  - intros k v. destruct (before_meta_defaults page u)
      as (_ & _ & -> & _). rewrite lookup_empty. discriminate.
  - intros m d' Hin Hd' k v. apply elem_of_find_all in Hin as [Htag Hin].
    destruct (classifies_total m) as [b Hb].
    rewrite (meta_step_effect _ _ _ Hb).
    destruct b; try apply Hd'.
    cbn [effect set_og_tags og_tags]. rewrite lookup_insert.
    case_decide as Hk; [|apply Hd'].
    intros [= <-]. exists m. tauto.
Qed.

Lemma twitter_tags_written (page : Page) (u : option string) (k v : string) :
  twitter_tags (after_meta page u) !! k = Some v ->
  written_by Twitter meta_name page k v.
Proof.
  revert k v. unfold after_meta.
  apply (fold_meta_step_invariant
           (fun d => forall k v, twitter_tags d !! k = Some v ->
                                 written_by Twitter meta_name page k v)).
  - intros k v. destruct (before_meta_defaults page u)
      as (_ & _ & _ & -> & _). rewrite lookup_empty. discriminate.
  - intros m d' Hin Hd' k v. apply elem_of_find_all in Hin as [Htag Hin].
    destruct (classifies_total m) as [b Hb].
    rewrite (meta_step_effect _ _ _ Hb).
    destruct b; try apply Hd'.
    cbn [effect set_twitter_tags twitter_tags]. rewrite lookup_insert.
    case_decide as Hk; [|apply Hd'].
    intros [= <-]. exists m. tauto.
Qed.

(** X12: every entry of the extracted [og_tags] was written by a [meta]
    element of the page that takes the og branch: its key is the lower-cased
    [property] of that element, so it starts with [og:] and is in lower case,
    and its value is the content of that element.  The same holds of
    [twitter_tags] with the [name] attribute and the prefix [twitter:]. *)
Theorem extracted_tags_come_from_meta (page : Page) (u : option string)
    (k v : string) :
  (og_tags (extract_from page u) !! k = Some v ->
   written_by Og meta_property page k v
   /\ startswith "og:" k = true /\ lower k = k)
  /\ (twitter_tags (extract_from page u) !! k = Some v ->
      written_by Twitter meta_name page k v
      /\ startswith "twitter:" k = true /\ lower k = k).
Proof.
  split; intros Hk.
  - rewrite extract_from_og_tags in Hk. apply og_tags_written in Hk.
    split; [exact Hk|].
    destruct Hk as (m & _ & _ & Hb & <- & _). inversion Hb as [| |_ _ Ho| |].
    split; [apply is_og_iff, Ho | apply lower_idempotent].
  - rewrite extract_from_twitter_tags in Hk. apply twitter_tags_written in Hk.
    split; [exact Hk|].
    destruct Hk as (m & _ & _ & Hb & <- & _).
    inversion Hb as [| | |_ _ _ Ht|].
    split; [apply is_twitter_iff, Ht | apply lower_idempotent].
Qed.

(** X13: a fetch that succeeds stores the page with the normalized URL and
    leaves [seo_data] as it was until the next extraction; the extraction
    that follows returns a dictionary with every key whose URL is the
    normalized URL, which has a scheme, and the preview then carries that URL
    and its host. *)
Theorem fetch_then_extract (http_get_parse : string -> option Page)
    (netloc : string -> string) (self self1 : SEOAnalyzer) (u : string) :
  fetch_html http_get_parse self u = Some self1 ->
  self_seo_data self1 = self_seo_data self
  /\ http_get_parse (normalize_url u) = self_soup self1
  /\ exists doc,
       fst (extract_seo_tags self1) = as_dict doc
       /\ self_seo_data (snd (extract_seo_tags self1)) = as_dict doc
       /\ url doc = Some (normalize_url u)
       /\ has_scheme (normalize_url u)
       /\ preview_url (get_preview_data netloc (snd (extract_seo_tags self1)))
          = Some (normalize_url u)
       /\ preview_domain
            (get_preview_data netloc (snd (extract_seo_tags self1)))
          = netloc (normalize_url u).
Proof.
  unfold fetch_html. destruct (http_get_parse (normalize_url u)) as [page|] eqn:E;
    [|discriminate].
  intros [= <-]. cbn [self_seo_data self_soup].
  split; [reflexivity|]. split; [reflexivity|].
  exists (extract_from page (Some (normalize_url u))).
  unfold extract_seo_tags. cbn [self_soup self_url fst snd self_seo_data].
  split; [reflexivity|]. split; [reflexivity|].
  split; [apply extract_from_fields|].
  split; [apply normalize_url_has_scheme|].
  unfold get_preview_data. cbn [self_url preview_url preview_domain].
  split; [reflexivity|].
  destruct (normalize_url_has_scheme u) as [rest [-> | ->]]; reflexivity.
Qed.

End Provenance.

(** ** More on persistence *)

Section Lookup.
Variable netloc : string -> string.

Lemma most_recent_none (rows : list Row) :
  most_recent rows = None <-> rows = [].
Proof.
  destruct rows as [|r rows]; [split; reflexivity|].
  cbn [most_recent]. split; [|discriminate].
  destruct (most_recent rows) as [r'|]; [|discriminate].
  destruct (_ <? _)%nat; discriminate.
Qed.

Lemma most_recent_max (rows : list Row) (r : Row) :
  most_recent rows = Some r ->
  In r rows
  /\ forall x, In x rows -> (col_analyzed_at x <= col_analyzed_at r)%nat.
Proof.
  revert r. induction rows as [|y rows IH]; intros r; [discriminate|].
  cbn [most_recent]. destruct (most_recent rows) as [r'|] eqn:E.
  - destruct (IH r' eq_refl) as [Hin Hmax].
    destruct (Nat.ltb_spec (col_analyzed_at y) (col_analyzed_at r'));
      intros [= <-].
    + split; [right; exact Hin|]. intros x [<-|Hx]; [lia | auto].
    + split; [left; reflexivity|]. intros x [<-|Hx]; [lia|].
      specialize (Hmax x Hx). lia.
  - apply most_recent_none in E. subst rows. intros [= <-].
    split; [left; reflexivity|]. intros x [<-|[]]. lia.
Qed.

Lemma url_matches_iff (q : string) (r : Row) :
  url_matches (get_url_variations q) r = true
  <-> exists v, col_url r = Some v /\ v ∈ get_url_variations q.
Proof.
  unfold url_matches. destruct (col_url r) as [v|].
  - rewrite bool_decide_eq_true. split; [eauto|]. intros (v' & [= <-] & H).
    exact H.
  - split; [discriminate|]. intros (v & H & _). discriminate H.
Qed.

Lemma elem_of_candidates (table : Table) (q : string) (r : Row) :
  In r (candidates table q)
  <-> r ∈ table /\ exists v, col_url r = Some v /\ v ∈ get_url_variations q.
Proof.
  unfold candidates. rewrite List.filter_In, url_matches_iff, list_elem_of_In.
  reflexivity.
Qed.

(** X14: on a connection, a lookup finds nothing exactly when no row of the
    table is stored under one of the variations of the looked-up URL; with no
    connection it finds nothing either. *)
Theorem lookup_miss (table : Table) (q : string) :
  (get_analysis_by_url (Some table) q = None
   <-> forall r v, r ∈ table -> col_url r = Some v ->
                   v ∉ get_url_variations q)
  /\ get_analysis_by_url None q = None.
Proof.
  split; [|reflexivity]. unfold get_analysis_by_url.
  fold (candidates table q).
  destruct (most_recent (candidates table q)) as [r|] eqn:E.
  - split; [discriminate|]. intros Hno. exfalso.
    apply most_recent_max in E as [Hin _].
    apply elem_of_candidates in Hin as (Hin & v & Hv & Hq).
    exact (Hno r v Hin Hv Hq).
  - split; [|reflexivity]. intros _ r v Hin Hv Hq.
    apply most_recent_none in E.
    assert (In r (candidates table q)) as H
      by (apply elem_of_candidates; eauto).
    rewrite E in H. destruct H.
Qed.

(** X15: the record a lookup returns is built from a row of the table that
    is stored under one of the variations of the looked-up URL, and no such
    row has a later time stamp. *)
Theorem lookup_most_recent (table : Table) (q : string)
    (record : gmap string pyval) :
  get_analysis_by_url (Some table) q = Some record ->
  exists r v,
    r ∈ table /\ record = record_of r
    /\ col_url r = Some v /\ v ∈ get_url_variations q
    /\ forall r' v', r' ∈ table -> col_url r' = Some v' ->
                     v' ∈ get_url_variations q ->
                     (col_analyzed_at r' <= col_analyzed_at r)%nat.
Proof.
  unfold get_analysis_by_url. fold (candidates table q).
  destruct (most_recent (candidates table q)) as [r|] eqn:E; [|discriminate].
  intros [= <-]. apply most_recent_max in E as [Hin Hmax].
  apply elem_of_candidates in Hin as (Hin & v & Hv & Hq).
  exists r, v. repeat split; try assumption.
  intros r' v' Hin' Hv' Hq'. apply Hmax, elem_of_candidates. eauto.
Qed.





End Lookup.

(** ** The history listing *)

Section History.
Variable netloc : string -> string.

#[local] Instance newer_first_total : Total newer_first.
Proof. intros r1 r2. unfold newer_first. lia. Qed.

#[local] Instance newer_first_trans : Transitive newer_first.
Proof. intros r1 r2 r3. unfold newer_first. lia. Qed.




(** X21: the record a lookup builds from any row has the nine keys [url],
    [title], [meta_description], [og_tags], [twitter_tags], [h1_tags],
    [seo_score], [analysis_results], [analyzed_at] and no other; its title
    and meta description are strings, the empty one for [NULL]; a [NULL] tag
    or analysis column reads as the empty dictionary and a [NULL] or empty
    heading column as the empty list.  The summary of the history has five
    keys and keeps a [NULL] title as [None]. *)
Theorem null_columns_read_as_empty (row : Row) :
  dom (record_of row)
  = ({["url"; "title"; "meta_description"; "og_tags"; "twitter_tags";
       "h1_tags"; "seo_score"; "analysis_results"; "analyzed_at"]}
     : gset string)
  /\ record_of row !! "title" = Some (PStr (default "" (col_title row)))
  /\ record_of row !! "meta_description"
     = Some (PStr (default "" (col_meta_description row)))
  /\ (col_og_tags row = None -> record_of row !! "og_tags" = Some (PDict ∅))
  /\ (col_twitter_tags row = None ->
      record_of row !! "twitter_tags" = Some (PDict ∅))
  /\ (col_analysis_results row = None ->
      record_of row !! "analysis_results" = Some (PDict ∅))
  /\ (col_h1_tags row = None \/ col_h1_tags row = Some (PList []) ->
      record_of row !! "h1_tags" = Some (PList []))
  /\ dom (summary_of row)
     = ({["url"; "domain"; "title"; "seo_score"; "analyzed_at"]} : gset string)
  /\ (col_title row = None -> summary_of row !! "title" = Some PNone).
Proof.
  assert (forall x, or_else x "" = default "" x) as Hor
    by (intros [[|c t]|]; reflexivity).
  unfold record_of, summary_of. rewrite !Hor.
  split; [rewrite !dom_insert_L, dom_empty_L; set_solver|].
  split; [by simplify_map_eq|]. split; [by simplify_map_eq|].
  split; [intros ->; by simplify_map_eq|].
  split; [intros ->; by simplify_map_eq|].
  split; [intros ->; by simplify_map_eq|].
  split; [intros [-> | ->]; by simplify_map_eq|].
  split; [rewrite !dom_insert_L, dom_empty_L; set_solver|].
  intros ->. by simplify_map_eq.
Qed.

End History.

(** ** The display *)

Section Display.
Variable netloc : string -> string.

(** X22: a score of 80 or more is Excellent, of 60 to 79 Good, of 40 to 59
    Needs Improvement and below 40 Poor, each grade with its own colour; a
    higher score never has a lower grade. *)
Theorem grade_thresholds_monotone (score score' : Z) :
  let grade := snd (get_score_color_and_grade score) in
  let color := fst (get_score_color_and_grade score) in
  ((80 <= score)%Z <-> grade = "Excellent")
  /\ ((60 <= score < 80)%Z <-> grade = "Good")
  /\ ((40 <= score < 60)%Z <-> grade = "Needs Improvement")
  /\ ((score < 40)%Z <-> grade = "Poor")
  /\ (grade = "Excellent" <-> color = "#4CAF50")
  /\ (grade = "Good" <-> color = "#FF9800")
  /\ (grade = "Needs Improvement" <-> color = "#FF5722")
  /\ (grade = "Poor" <-> color = "#F44336")
  /\ ((score <= score')%Z ->
      (grade_rank grade
       <= grade_rank (snd (get_score_color_and_grade score')))%nat).
Proof.
  cbv zeta. unfold get_score_color_and_grade.
  destruct (Z.leb_spec 80 score); [|destruct (Z.leb_spec 60 score);
    [|destruct (Z.leb_spec 40 score)]];
    cbn [fst snd];
    (repeat split; try (intros; lia); try discriminate; try reflexivity);
    destruct (Z.leb_spec 80 score'); try lia;
    destruct (Z.leb_spec 60 score'); try lia;
    destruct (Z.leb_spec 40 score'); try lia;
    intros _; vm_compute; lia.
Qed.

Lemma total_of_entries (self : SEOAnalyzer) :
  let d := with_defaults (self_seo_data self) in
  calculate_seo_score (analyze_seo_quality self)
  = (score (analyze_title (title d))
     + score (analyze_description (meta_description d))
     + score (analyze_og (og_tags d))
     + score (analyze_twitter (twitter_tags d))
     + score (analyze_h1 (h1_tags d)))%Z.
Proof. rewrite analyze_seo_quality_entries. apply calculate_five. Qed.

(** X23: an analysis in which all five categories are a success is graded
    Excellent, one in which two categories are an error is never graded
    Excellent, and one in which all five are an error is graded Poor. *)
Theorem grade_of_analysis (self : SEOAnalyzer) :
  let analysis := analyze_seo_quality self in
  let grade := snd (get_score_color_and_grade (calculate_seo_score analysis)) in
  ((forall k r, dict_get k analysis = Some r -> status r = success) ->
   grade = "Excellent")
  /\ ((forall k r, dict_get k analysis = Some r -> status r = error) ->
      grade = "Poor")
  /\ (forall k1 k2 r1 r2,
        k1 <> k2 ->
        dict_get k1 analysis = Some r1 -> status r1 = error ->
        dict_get k2 analysis = Some r2 -> status r2 = error ->
        grade <> "Excellent").
Proof.
  cbv zeta. rewrite total_of_entries. cbv zeta.
  set (d := with_defaults (self_seo_data self)).
  destruct (analyze_title_fits (title d)) as (Te & _ & Ts).
  destruct (analyze_description_fits (meta_description d)) as (De & _ & Ds).
  destruct (analyze_og_fits (og_tags d)) as ((Oe & _ & Os) & _).
  destruct (analyze_twitter_fits (twitter_tags d)) as ((We & _ & Ws) & _).
  destruct (analyze_h1_fits (h1_tags d)) as ((He & _ & Hs) & _).
  pose proof (analyze_title_score (title d)).
  pose proof (analyze_description_score (meta_description d)).
  pose proof (analyze_og_score (og_tags d)).
  pose proof (analyze_twitter_score (twitter_tags d)).
  pose proof (analyze_h1_score (h1_tags d)).
  split; [|split].
  - intros Hall. apply (all_entries self (fun r => status r = success)) in Hall.
    cbv zeta in Hall. fold d in Hall. destruct Hall as (A & B & C & D & E).
    apply Ts in A. apply Ds in B. apply Os in C. apply Ws in D. apply Hs in E.
    rewrite A, B, C, D, E. reflexivity.
  - intros Hall. apply (all_entries self (fun r => status r = error)) in Hall.
    cbv zeta in Hall. fold d in Hall. destruct Hall as (A & B & C & D & E).
    apply Te in A. apply De in B. apply Oe in C. apply We in D. apply He in E.
    rewrite A, B, C, D, E. reflexivity.
  - intros k1 k2 r1 r2 Hne E1 S1 E2 S2.
    apply analysis_entry in E1, E2. cbv zeta in E1, E2. fold d in E1, E2.
    assert (forall x, (x < 80)%Z ->
              snd (get_score_color_and_grade x) <> "Excellent") as Hlow.
    { intros x Hx. unfold get_score_color_and_grade.
      destruct (Z.leb_spec 80 x); [lia|].
      destruct (_ <=? _)%Z; [|destruct (_ <=? _)%Z]; discriminate. }
    apply Hlow.
    destruct E1 as [[-> ->]|[[-> ->]|[[-> ->]|[[-> ->]|[-> ->]]]]];
    destruct E2 as [[-> ->]|[[-> ->]|[[-> ->]|[[-> ->]|[-> ->]]]]];
    try congruence;
    first [apply Te in S1 | apply De in S1 | apply Oe in S1
          | apply We in S1 | apply He in S1];
    first [apply Te in S2 | apply De in S2 | apply Oe in S2
          | apply We in S2 | apply He in S2];
    lia.
Qed.

Lemma length_take_str (n : nat) (s : string) :
  String.length (take_str n s) = Nat.min n (String.length s).
Proof.
  revert s. induction n as [|n IH]; intros [|c s]; cbn [take_str String.length Nat.min];
    try reflexivity. rewrite IH. reflexivity.
Qed.

Lemma take_str_all (n : nat) (s : string) :
  (String.length s <= n)%nat -> take_str n s = s.
Proof.
  revert s. induction n as [|n IH]; intros [|c s] Hlen; cbn [take_str];
    try reflexivity; cbn [String.length] in Hlen; [lia|].
  rewrite IH by lia. reflexivity.
Qed.

Lemma take_str_prefix (n : nat) (s : string) :
  startswith (take_str n s) s = true.
Proof.
  revert s. induction n as [|n IH]; intros [|c s]; cbn [take_str startswith];
    try reflexivity. rewrite Ascii.eqb_refl, IH. reflexivity.
Qed.

Lemma append_empty_r (s : string) : s +:+ "" = s.
Proof.
  induction s as [|c s IH]; [reflexivity|].
  change (String c (s +:+ "") = String c s). rewrite IH. reflexivity.
Qed.

Lemma ellipsize_aux (n : nat) (s : string) :
  (String.length s <= n)%nat -> ellipsize n s = s.
Proof.
  intros Hlen. unfold ellipsize.
  destruct (Nat.ltb_spec n (String.length s)); [lia|].
  rewrite append_empty_r, take_str_all by exact Hlen. reflexivity.
Qed.

(** X24: a text cut for a card is the text itself when it has at most [n]
    characters; otherwise it is the first [n] characters of the text followed
    by three dots, [n + 3] characters in all. *)
Theorem ellipsize_spec (n : nat) (s : string) :
  ((String.length s <= n)%nat -> ellipsize n s = s)
  /\ ((n < String.length s)%nat ->
      ellipsize n s = take_str n s +:+ "..."
      /\ String.length (take_str n s) = n
      /\ startswith (take_str n s) s = true
      /\ String.length (ellipsize n s) = (n + 3)%nat)
  /\ (String.length (ellipsize n s) <= n + 3)%nat.
Proof.
  unfold ellipsize. destruct (Nat.ltb_spec n (String.length s)) as [Hlt|Hge].
  - split; [intros; lia|].
    assert (String.length (take_str n s) = n) as Hn
      by (rewrite length_take_str; lia).
    split; [|rewrite length_append, Hn; simpl; lia].
    intros _. split; [reflexivity|]. split; [exact Hn|].
    split; [apply take_str_prefix|].
    rewrite length_append, Hn. reflexivity.
  - rewrite append_empty_r, take_str_all by exact Hge.
    split; [reflexivity|]. split; lia.
Qed.

Lemma analyze_title_success (t : string) :
  status (analyze_title t) = success ->
  (30 <= String.length t <= 60)%nat.
Proof.
  unfold analyze_title. destruct (is_empty t); [discriminate|].
  destruct (Nat.ltb_spec (String.length t) 30); [discriminate|].
  destruct (Nat.ltb_spec 60 (String.length t)); [discriminate|]. lia.
Qed.

Lemma analyze_description_success (t : string) :
  status (analyze_description t) = success ->
  (120 <= String.length t <= 160)%nat.
Proof.
  unfold analyze_description. destruct (is_empty t); [discriminate|].
  destruct (Nat.ltb_spec (String.length t) 120); [discriminate|].
  destruct (Nat.ltb_spec 160 (String.length t)); [discriminate|]. lia.
Qed.

(** X25: when the page has no usable Open Graph or Twitter title and
    description, so that the preview shows the title and the meta description
    of the page, a title rated a success is shown in full on both cards and a
    meta description rated a success is shown in full on the Google card; on
    the social cards that description is cut after 120 characters unless it
    has exactly 120. *)
Theorem optimal_texts_on_cards (self : SEOAnalyzer) (doc : SeoDocument)
    (t d : CategoryResult) :
  self_seo_data self = as_dict doc ->
  empty_at (og_tags doc) "og:title" ->
  empty_at (twitter_tags doc) "twitter:title" ->
  empty_at (og_tags doc) "og:description" ->
  empty_at (twitter_tags doc) "twitter:description" ->
  dict_get "title" (analyze_seo_quality self) = Some t ->
  dict_get "description" (analyze_seo_quality self) = Some d ->
  let preview := get_preview_data netloc self in
  (status t = success ->
   google_preview_title preview = title doc
   /\ social_preview_title preview = title doc)
  /\ (status d = success ->
      google_preview_description preview = meta_description doc
      /\ (String.length (meta_description doc) = 120%nat ->
          social_preview_description preview = meta_description doc)
      /\ (String.length (meta_description doc) <> 120%nat ->
          social_preview_description preview
          = take_str 120 (meta_description doc) +:+ "...")).
Proof.
  intros Hdoc Hot Htt Hod Htd Ht Hd. cbv zeta.
  rewrite analyze_seo_quality_entries, Hdoc in Ht, Hd.
  cbv zeta in Ht, Hd.
  cbn [as_dict item_title item_meta_description from_option id dict_get
       String.eqb Ascii.eqb Bool.eqb] in Ht, Hd.
  injection Ht as <-. injection Hd as <-.
  unfold google_preview_title, social_preview_title,
    google_preview_description, social_preview_description, get_preview_data.
  rewrite Hdoc.
  cbn [as_dict item_title item_meta_description item_og_tags
       item_twitter_tags from_option id preview_title preview_description].
  rewrite !or_else_empty by assumption.
  split.
  - intros Hs. apply analyze_title_success in Hs.
    split; apply ellipsize_aux; lia.
  - intros Hs. apply analyze_description_success in Hs.
    split; [apply ellipsize_aux; lia|]. split.
    + intros Hlen. apply ellipsize_aux. lia.
    + intros Hlen. unfold ellipsize.
      destruct (Nat.ltb_spec 120 (String.length (meta_description doc)));
        [reflexivity | lia].
Qed.

End Display.

(** ** The further theorems at sample values *)

Section MoreSamples.


Lemma scheme_free_example : scheme_free "example.com".
Proof. split; vm_compute; reflexivity. Defined.

Lemma variations_without_scheme_witness :
  get_url_variations "example.com" = ["example.com"; "https://example.com"]
  /\ "http://example.com" ∉ get_url_variations "example.com".
Proof.
  apply (variations_without_scheme "example.com").
  intros H. apply has_scheme_iff in H. vm_compute in H. discriminate H.
Defined.

Lemma variations_with_scheme_witness :
  get_url_variations "https://example.com"
  = ["https://example.com"; "example.com"]
  /\ get_url_variations "http://example.com"
     = ["http://example.com"; "example.com"].
Proof. apply (variations_with_scheme "example.com" scheme_free_example). Defined.

(** One Open Graph tag out of four is a warning. *)
Lemma tag_categories_rule_witness :
  exists o,
    dict_get "og_tags" (analyze_seo_quality sample_self) = Some o
    /\ status o = warning /\ score o = 10%Z.
Proof.
  destruct (tag_categories_rule sample_self sample_doc eq_refl)
    as (o & w & Ho & _ & Ro & _).
  exists o. split; [exact Ho|].
  apply (proj1 (proj2 Ro)).
  - intros H. apply (f_equal (fun m => m !! "og:title")) in H.
    vm_compute in H. discriminate H.
  - exists "og:type". split; [|vm_compute; reflexivity].
    right. right. left.
Defined.

(** A page with one heading is a success. *)
Lemma h1_category_counts_elements_witness :
  exists h,
    dict_get "h1_structure"
      (analyze_seo_quality (snd (extract_seo_tags sample_one_h1))) = Some h
    /\ status h = success.
Proof.
  destruct (h1_category_counts_elements sample_one_h1 _ eq_refl)
    as (h & Hh & _ & Hs & _).
  exists h. split; [exact Hh|]. apply Hs. reflexivity.
Defined.

Lemma title_first_wins_witness :
  title (extract_from sample_titles None) = "First".
Proof.
  apply (title_first_wins [] [element "title" [] [] "Second"]
           (element "title" [] [] " First ") None eq_refl).
  intros e Hin. apply elem_of_nil in Hin. destruct Hin.
Defined.

Lemma description_keywords_last_win_witness :
  meta_description (extract_from sample_descriptions None) = "new".
Proof.
  apply (proj1 (description_keywords_last_win
    [element "meta" [("name", "description"); ("content", "old")] [] ""] []
    (element "meta" [("name", "Description"); ("content", "new")] [] "")
    None eq_refl)).
  - apply classifies_description. vm_compute. reflexivity.
  - intros m Hin. apply elem_of_nil in Hin. destruct Hin.
Defined.

Lemma canonical_first_wins_witness :
  canonical (extract_from sample_links None) = "/a".
Proof.
  apply (canonical_first_wins []
           [element "link" [("href", "/b")] ["canonical"] ""]
           (element "link" [("href", "/a")] ["canonical"] "") None eq_refl).
  - vm_compute. reflexivity.
  - intros e Hin. apply elem_of_nil in Hin. destruct Hin.
Defined.

Lemma fetch_then_extract_witness :
  self_seo_data sample_fetched = self_seo_data init
  /\ exists doc,
       fst (extract_seo_tags sample_fetched) = as_dict doc
       /\ url doc = Some "https://example.com".
Proof.
  destruct (fetch_then_extract sample_get sample_netloc init sample_fetched
              "example.com" eq_refl)
    as (Hkeep & _ & doc & Hdict & _ & Hurl & _).
  split; [exact Hkeep|]. exists doc. split; [exact Hdict | exact Hurl].
Defined.

Lemma sample_lookup :
  get_analysis_by_url (Some [sample_row]) "example.com"
  = Some (record_of sample_row).
Proof. vm_compute. reflexivity. Defined.

Lemma lookup_most_recent_witness :
  exists r v,
    r ∈ [sample_row] /\ col_url r = Some v
    /\ v ∈ get_url_variations "example.com".
Proof.
  destruct (lookup_most_recent [sample_row] "example.com"
              (record_of sample_row) sample_lookup)
    as (r & v & Hin & _ & Hv & Hq & _).
  exists r, v. split; [exact Hin|]. split; [exact Hv | exact Hq].
Defined.




Lemma optimal_texts_on_cards_witness :
  google_preview_title (get_preview_data sample_netloc sample_plain_self)
  = "A Great Guide to Widgets and Gadgets".
Proof.
  apply (proj1 (proj1 (optimal_texts_on_cards sample_netloc sample_plain_self
    sample_plain_doc (analyze_title (title sample_plain_doc))
    (analyze_description (meta_description sample_plain_doc))
    eq_refl (or_introl eq_refl) (or_introl eq_refl)
    (or_introl eq_refl) (or_introl eq_refl) eq_refl eq_refl) eq_refl)).
Defined.

End MoreSamples.
